(** * Coaching policies: the policy wrapper and the behaviour-tree leaf nodes

    A shallow embedding of [Policy/policy_wrapper.py] and of the leaf nodes of
    [CoachingBehaviourTree/nodes.py], with the properties the specification
    states about them.

    Python ints are [Z]; lists are [list]; the module-level globals of
    [controller] and the blackboard [nodedata] are records whose absent
    attributes are [None]; a loop that the source does not bound runs on
    fuel, and running out of fuel is [None]; the body of a [run] callback is
    a sequence of steps over its state, each of which may end it with a
    status or an exception. *)

From Stdlib Require Import ZArith QArith Qround Lia Lqa.
From stdpp Require Import base decidable option list strings.

Local Open Scope Z_scope.

(** ** The behaviour catalogue *)

(** Modelled from the spec: the behaviour constants [config.A_*] /
    [Policy.A_*] are declared outside src/; the spec describes them as a
    closed enumeration of identifiers, so they are the constructors of an
    enumeration, one per name the two source files use.  [A_UNLISTED] stands
    for the catalogue entries that neither file names. *)
Inductive Behaviour : Type :=
| A_START
| A_END
| A_SILENCE
| A_PREINSTRUCTION
| A_CONCURRENTINSTRUCTIONPOSITIVE
| A_CONCURRENTINSTRUCTIONNEGATIVE
| A_POSTINSTRUCTIONPOSITIVE
| A_POSTINSTRUCTIONNEGATIVE
| A_QUESTIONING
| A_POSITIVEMODELING
| A_NEGATIVEMODELING
| A_FIRSTNAME
| A_HUSTLE
| A_PRAISE
| A_SCOLD
| A_CONSOLE
| A_PREINSTRUCTION_FIRSTNAME
| A_PREINSTRUCTION_QUESTIONING
| A_PREINSTRUCTION_PRAISE
| A_PREINSTRUCTION_POSITIVEMODELING
| A_PREINSTRUCTION_NEGATIVEMODELING
| A_PREINSTRUCTION_MANUALMANIPULATION
| A_POSITIVEMODELING_PREINSTRUCTION
| A_POSITIVEMODELING_PRAISE
| A_POSITIVEMODELING_QUESTIONING
| A_POSITIVEMODELING_HUSTLE
| A_POSITIVEMODELING_POSTINSTRUCTIONPOSITIVE
| A_POSITIVEMODELING_CONCURRENTINSTRUCTIONPOSITIVE
| A_NEGATIVEMODELING_POSTINSTRUCTIONNEGATIVE
| A_POSTINSTRUCTIONPOSITIVE_QUESTIONING
| A_POSTINSTRUCTIONPOSITIVE_FIRSTNAME
| A_POSTINSTRUCTIONPOSITIVE_POSITIVE_MODELING
| A_POSTINSTRUCTIONPOSITIVE_NEGATIVE_MODELING
| A_POSTINSTRUCTIONPOSITIVE_MANUALMANIPULATION
| A_POSTINSTRUCTIONNEGATIVE_QUESTIONING
| A_POSTINSTRUCTIONNEGATIVE_FIRSTNAME
| A_POSTINSTRUCTIONNEGATIVE_POSITIVEMODELING
| A_POSTINSTRUCTIONNEGATIVE_NEGATIVEMODELING
| A_POSTINSTRUCTIONNEGATIVE_MANUALMANIPULATION
| A_QUESTIONING_FIRSTNAME
| A_QUESTIONING_POSITIVEMODELING
| A_QUESTIONING_NEGATIVEMODELING
| A_PRAISE_FIRSTNAME
| A_SCOLD_FIRSTNAME
| A_SCOLD_POSITIVEMODELING
| A_CONSOLE_FIRSTNAME
| A_HUSTLE_FIRSTNAME
| A_CONCURRENTINSTRUCTIONPOSITIVE_QUESTIONING
| A_CONCURRENTINSTRUCTIONPOSITIVE_FIRSTNAME
| A_CONCURRENTINSTRUCTIONPOSITIVE_POSITIVEMODELING
| A_CONCURRENTINSTRUCTIONPOSITIVE_PRAISE
| A_CONCURRENTINSTRUCTIONPOSITIVE_MANUALMANIPULATION
| A_CONCURRENTINSTRUCTIONNEGATIVE_NEGATIVEMODELING
| A_CONCURRENTINSTRUCTIONNEGATIVE_FIRSTNAME
| A_CONCURRENTINSTRUCTIONNEGATIVE_MANUALMANIPULATION
| A_MANUALMANIPULATION_QUESTIONING
| A_MANUALMANIPULATION_PREINSTRUCTION
| A_MANUALMANIPULATION_POSITIVEMODELING
| A_MANUALMANIPULATION_CONCURRENTINSTRUCTIONNEGATIVE
| A_MANUALMANIPULATION_CONCURRENTINSTRUCTIONPOSITIVE
| A_MANUALMANIPULATION_CONSOLE
| A_MANUALMANIPULATION_FIRSTNAME
| A_MANUALMANIPULATION_HUSTLE
| A_MANUALMANIPULATION_POSTINSTRUCTIONNEGATIVE
| A_MANUALMANIPULATION_POSTINSTRUCTIONPOSITIVE
| A_MANUALMANIPULATION_PRAISE
| A_UNLISTED (code : nat).

#[global] Instance Behaviour_eq_dec : EqDecision Behaviour.
Proof. solve_decision. Defined.

(** ** Goal levels, phases and performance levels *)

(** Modelled from the spec: the goal levels of [config] (declared outside
    src/), numbered as the spec's GoalLevel enumeration and the block that
    [policy_wrapper.py] keeps above [get_behaviour]. *)
Definition PERSON_GOAL : Z := 0.
Definition SESSION_GOAL : Z := 1.
Definition EXERCISE_GOAL : Z := 2.
Definition SET_GOAL : Z := 3.
Definition ACTION_GOAL : Z := 4.

(** Modelled from the spec: the two phases of [config], Start then End. *)
Definition PHASE_START : Z := 0.
Definition PHASE_END : Z := 1.

(** Modelled from the spec: the performance levels of [config] that the valid
    list looks at (Good=0, Fast=1, Slow=2). *)
Definition GOOD : Z := 0.
Definition FAST : Z := 1.
Definition SLOW : Z := 2.

(** A performance is an int or [None] (no data yet). *)
Definition Performance : Type := option Z.

(** A policy state is the index of a state of the underlying chain. *)
Definition State : Type := Z.

(** ** The valid list *)

(** [PolicyWrapper._get_valid_list]. *)
Definition _get_valid_list (goal_level : Z) (performance : Performance) (phase : Z)
  : list Behaviour :=
  if bool_decide (goal_level = PERSON_GOAL) then
    if bool_decide (phase = PHASE_START)
    then [A_PREINSTRUCTION; A_PREINSTRUCTION_FIRSTNAME]
    else [A_END]
  else if bool_decide (goal_level = SESSION_GOAL ∨ goal_level = EXERCISE_GOAL
                       ∨ goal_level = SET_GOAL) then
    [A_POSTINSTRUCTIONPOSITIVE; A_POSTINSTRUCTIONNEGATIVE;
     A_QUESTIONING; A_POSTINSTRUCTIONPOSITIVE_QUESTIONING;
     A_POSTINSTRUCTIONPOSITIVE_FIRSTNAME;
     A_POSTINSTRUCTIONNEGATIVE_QUESTIONING; A_QUESTIONING_FIRSTNAME;
     A_POSTINSTRUCTIONNEGATIVE_FIRSTNAME;
     A_QUESTIONING_POSITIVEMODELING; A_POSITIVEMODELING_QUESTIONING;
     A_POSTINSTRUCTIONPOSITIVE_POSITIVE_MODELING;
     A_POSTINSTRUCTIONPOSITIVE_NEGATIVE_MODELING;
     A_POSTINSTRUCTIONNEGATIVE_POSITIVEMODELING;
     A_POSTINSTRUCTIONNEGATIVE_NEGATIVEMODELING;
     A_QUESTIONING_NEGATIVEMODELING;
     A_POSITIVEMODELING_POSTINSTRUCTIONPOSITIVE;
     A_NEGATIVEMODELING_POSTINSTRUCTIONNEGATIVE]
    ++
    (if bool_decide (phase = PHASE_START) then
       [A_PREINSTRUCTION; A_PREINSTRUCTION_QUESTIONING;
        A_PREINSTRUCTION_FIRSTNAME;
        A_PREINSTRUCTION_POSITIVEMODELING;
        A_PREINSTRUCTION_NEGATIVEMODELING;
        A_POSITIVEMODELING_PREINSTRUCTION]
       ++
       (if bool_decide (performance = Some GOOD) then
          [A_PRAISE; A_PRAISE_FIRSTNAME; A_POSITIVEMODELING_PRAISE]
          ++ [A_PRAISE; A_PRAISE_FIRSTNAME; A_POSITIVEMODELING_PRAISE]
        else if bool_decide (performance = Some SLOW ∨ performance = Some FAST) then
          [A_SCOLD; A_CONSOLE; A_SCOLD_FIRSTNAME; A_CONSOLE_FIRSTNAME]
        else [])
     else
       (if bool_decide (goal_level = SESSION_GOAL) then [A_END] else [])
       ++
       (if bool_decide (performance = Some GOOD) then
          [A_PRAISE; A_PRAISE_FIRSTNAME; A_POSITIVEMODELING_PRAISE]
        else if bool_decide (performance = Some SLOW ∨ performance = Some FAST) then
          [A_SCOLD; A_CONSOLE; A_SCOLD_FIRSTNAME; A_CONSOLE_FIRSTNAME]
        else []))
  else
    [A_SILENCE; A_CONCURRENTINSTRUCTIONPOSITIVE;
     A_QUESTIONING; A_POSITIVEMODELING; A_HUSTLE;
     A_CONCURRENTINSTRUCTIONPOSITIVE_QUESTIONING;
     A_CONCURRENTINSTRUCTIONPOSITIVE_FIRSTNAME;
     A_QUESTIONING_FIRSTNAME; A_HUSTLE_FIRSTNAME;
     A_CONCURRENTINSTRUCTIONPOSITIVE_POSITIVEMODELING;
     A_POSITIVEMODELING_HUSTLE;
     A_POSITIVEMODELING_CONCURRENTINSTRUCTIONPOSITIVE]
    ++
    (if bool_decide (performance = Some GOOD) then
       [A_PRAISE; A_PRAISE_FIRSTNAME;
        A_CONCURRENTINSTRUCTIONPOSITIVE_PRAISE;
        A_POSITIVEMODELING_PRAISE]
     else if bool_decide (performance = Some SLOW ∨ performance = Some FAST) then
       [A_CONCURRENTINSTRUCTIONNEGATIVE; A_NEGATIVEMODELING;
        A_SCOLD; A_CONSOLE;
        A_QUESTIONING_NEGATIVEMODELING; A_SCOLD_POSITIVEMODELING;
        A_SCOLD_FIRSTNAME; A_CONSOLE_FIRSTNAME;
        A_CONCURRENTINSTRUCTIONNEGATIVE_NEGATIVEMODELING;
        A_CONCURRENTINSTRUCTIONNEGATIVE_FIRSTNAME]
     else []).

(** ** The underlying policy *)

(** The policy ([Policy.policy.Policy], outside src/) is a stochastic oracle:
    [sample_action(state)] draws a behaviour and
    [sample_observation(state, action)] draws the next state.  Each draw
    consumes randomness, so both methods pass a generator state [Rng] along;
    nothing else is assumed of them. *)
Record Policy (Rng : Type) : Type := {
  sample_action : State → Rng → Behaviour * Rng;
  sample_observation : State → Behaviour → Rng → State * Rng
}.
Arguments sample_action {Rng} _ _ _.
Arguments sample_observation {Rng} _ _ _ _.

(** What a method of the wrapper hands back to its Python caller: a bare
    behaviour (an int), or a 2-tuple of behaviours, the shape that
    [GetBehaviour.run] unpacks. *)
Inductive PyValue : Type :=
| PyBehaviour (b : Behaviour)
| PyTuple (b ob : Behaviour).

(** ** The policy wrapper *)

(** The local variables of [get_behaviour] that the [while] loop updates. *)
Record Locals (Rng : Type) : Type := mkLocals {
  behaviour : Behaviour;
  state : State;
  count : Z;
  rng : Rng
}.
Arguments mkLocals {Rng} _ _ _ _.
Arguments behaviour {Rng} _.
Arguments state {Rng} _.
Arguments count {Rng} _.
Arguments rng {Rng} _.

(** The [if]/[elif] chain of [get_behaviour] that maps a compound with manual
    manipulation to its base behaviour; [None] is the final [else]. *)
Definition manual_manipulation_base (b : Behaviour) : option Behaviour :=
  match b with
  | A_MANUALMANIPULATION_QUESTIONING => Some A_QUESTIONING
  | A_MANUALMANIPULATION_PREINSTRUCTION
  | A_PREINSTRUCTION_MANUALMANIPULATION => Some A_PREINSTRUCTION
  | A_MANUALMANIPULATION_POSITIVEMODELING => Some A_POSITIVEMODELING
  | A_MANUALMANIPULATION_CONCURRENTINSTRUCTIONNEGATIVE
  | A_CONCURRENTINSTRUCTIONNEGATIVE_MANUALMANIPULATION =>
      Some A_CONCURRENTINSTRUCTIONNEGATIVE
  | A_MANUALMANIPULATION_CONCURRENTINSTRUCTIONPOSITIVE
  | A_CONCURRENTINSTRUCTIONPOSITIVE_MANUALMANIPULATION =>
      Some A_CONCURRENTINSTRUCTIONPOSITIVE
  | A_MANUALMANIPULATION_CONSOLE => Some A_CONSOLE
  | A_MANUALMANIPULATION_FIRSTNAME => Some A_FIRSTNAME
  | A_MANUALMANIPULATION_HUSTLE => Some A_HUSTLE
  | A_MANUALMANIPULATION_POSTINSTRUCTIONNEGATIVE
  | A_POSTINSTRUCTIONNEGATIVE_MANUALMANIPULATION =>
      Some A_POSTINSTRUCTIONNEGATIVE
  | A_MANUALMANIPULATION_POSTINSTRUCTIONPOSITIVE
  | A_POSTINSTRUCTIONPOSITIVE_MANUALMANIPULATION =>
      Some A_POSTINSTRUCTIONPOSITIVE
  | A_MANUALMANIPULATION_PRAISE => Some A_PRAISE
  | _ => None
  end.

Section PolicyWrapper.
Context {Rng : Type} (policy : Policy Rng).

(** One pass through the body of the [while] loop of [get_behaviour]. *)
Definition loop_body (goal_level : Z) (l : Locals Rng) : Locals Rng :=
  if bool_decide (goal_level = ACTION_GOAL) then
    mkLocals A_SILENCE (state l) (count l) (rng l)
  else
    let l' :=
      if bool_decide (count l ≤ 10) then
        let '(b, r) := sample_action policy (state l) (rng l) in
        mkLocals b (state l) (count l) r
      else
        match manual_manipulation_base (behaviour l) with
        | Some base => mkLocals base (state l) (count l) (rng l)
        | None =>
            let b := if bool_decide (behaviour l = A_END) then A_START
                     else behaviour l in
            let '(s, r) := sample_observation policy (state l) b (rng l) in
            let '(b', r') := sample_action policy s r in
            mkLocals b' s 0 r'
        end in
    mkLocals (behaviour l') (state l') (count l' + 1) (rng l').

(** [while not(behaviour in valid_behaviours): ...], at most [fuel] passes. *)
Fixpoint while_not_valid (fuel : nat) (valid_behaviours : list Behaviour)
    (goal_level : Z) (l : Locals Rng) : option (Locals Rng) :=
  if bool_decide (behaviour l ∈ valid_behaviours) then Some l
  else match fuel with
       | O => None
       | S fuel' =>
           while_not_valid fuel' valid_behaviours goal_level
             (loop_body goal_level l)
       end.

(** The locals on entry to the loop of [get_behaviour]. *)
Definition initial_locals (state : State) (goal_level phase : Z) (gen : Rng)
  : Locals Rng :=
  if bool_decide (goal_level = PERSON_GOAL ∧ phase = PHASE_END) then
    mkLocals A_END state 0 gen
  else
    let '(b, r) := sample_action policy state gen in
    mkLocals b state 0 r.

(** [PolicyWrapper.get_behaviour]: [return behaviour]. *)
Definition get_behaviour (fuel : nat) (state : State) (goal_level : Z)
    (performance : Performance) (phase : Z) (gen : Rng)
  : option (PyValue * Rng) :=
  let valid_behaviours := _get_valid_list goal_level performance phase in
  l ← while_not_valid fuel valid_behaviours goal_level
        (initial_locals state goal_level phase gen);
  Some (PyBehaviour (behaviour l), rng l).

(** [PolicyWrapper.get_observation]. *)
Definition get_observation (state : State) (behaviour : Behaviour) (gen : Rng)
  : State * Rng :=
  sample_observation policy state behaviour gen.

End PolicyWrapper.

(** ** The behaviour tree: status, exceptions, blackboard and globals *)

(** [NodeStatus] of the tree runtime: what the [run] callback of a node
    returns. *)
Inductive NodeStatus : Type := SUCCESS | FAIL | ACTIVE.

(** The Python exceptions that the embedded code can raise. *)
Inductive Exn : Type := TypeError | AttributeError | StatisticsError.

(** How a [run] callback ends.  [FileIO] marks the point where a callback
    goes on to read or write the history file of the participant, which the
    embedding does not follow. *)
Inductive Result : Type :=
| Return (status : NodeStatus)
| Raise (e : Exn)
| FileIO.

(** Modelled from the spec: the completion flag of [controller]
    ([COMPLETED_STATUS_TRUE] / [COMPLETED_STATUS_FALSE], declared outside
    src/). *)
Inductive Completed : Type := COMPLETED_STATUS_FALSE | COMPLETED_STATUS_TRUE.

(** The blackboard slots that the embedded nodes read or write; a slot that was
    never set is [None], which is also what [get_data] answers for it. *)
Module nodedata.

Record t : Type := mk {
  goal : option Z;
  phase : option Z;
  performance : Performance;
  score : option Q;
  target : option Q;
  new_goal : option Z;
  behaviour : option Behaviour;
  obs_behaviour : option Behaviour;
  observation : option State;
  check_behaviour : option Behaviour
}.

Definition set_phase (v : option Z) (x : t) : t :=
  mk (goal x) v (performance x) (score x) (target x) (new_goal x)
    (behaviour x) (obs_behaviour x) (observation x) (check_behaviour x).

Definition set_performance (v : Performance) (x : t) : t :=
  mk (goal x) (phase x) v (score x) (target x) (new_goal x) (behaviour x)
    (obs_behaviour x) (observation x) (check_behaviour x).

Definition set_score (v : option Q) (x : t) : t :=
  mk (goal x) (phase x) (performance x) v (target x) (new_goal x)
    (behaviour x) (obs_behaviour x) (observation x) (check_behaviour x).

Definition set_target (v : option Q) (x : t) : t :=
  mk (goal x) (phase x) (performance x) (score x) v (new_goal x)
    (behaviour x) (obs_behaviour x) (observation x) (check_behaviour x).

Definition set_new_goal (v : option Z) (x : t) : t :=
  mk (goal x) (phase x) (performance x) (score x) (target x) v (behaviour x)
    (obs_behaviour x) (observation x) (check_behaviour x).

Definition set_behaviour (v : option Behaviour) (x : t) : t :=
  mk (goal x) (phase x) (performance x) (score x) (target x) (new_goal x) v
    (obs_behaviour x) (observation x) (check_behaviour x).

Definition set_obs_behaviour (v : option Behaviour) (x : t) : t :=
  mk (goal x) (phase x) (performance x) (score x) (target x) (new_goal x)
    (behaviour x) v (observation x) (check_behaviour x).

Definition set_observation (v : option State) (x : t) : t :=
  mk (goal x) (phase x) (performance x) (score x) (target x) (new_goal x)
    (behaviour x) (obs_behaviour x) v (check_behaviour x).

End nodedata.

(** The module-level variables of [controller] that the embedded nodes read or
    write.  Scores and targets are Python floats; they are kept as the
    rationals they denote. *)
Module controller.

Record t : Type := mk {
  used_behaviours : list Behaviour;
  prev_behav : option Behaviour;
  goal_level : Z;
  phase : Z;
  completed : Completed;
  session_time : Z;
  set_count : Z;
  exercise_count : Z;
  performance : Performance;
  score : option Q;
  target : option Q;
  set_performance_list : list Z;
  set_score_list : list Q;
  exercise_performance_list : list Z;
  exercise_score_list : list Q;
  session_performance_list : list Z
}.

Definition set_used_behaviours (v : list Behaviour) (x : t) : t :=
  mk v (prev_behav x) (goal_level x) (phase x) (completed x)
    (session_time x) (set_count x) (exercise_count x) (performance x)
    (score x) (target x) (set_performance_list x) (set_score_list x)
    (exercise_performance_list x) (exercise_score_list x)
    (session_performance_list x).

Definition set_prev_behav (v : option Behaviour) (x : t) : t :=
  mk (used_behaviours x) v (goal_level x) (phase x) (completed x)
    (session_time x) (set_count x) (exercise_count x) (performance x)
    (score x) (target x) (set_performance_list x) (set_score_list x)
    (exercise_performance_list x) (exercise_score_list x)
    (session_performance_list x).

Definition set_goal_level (v : Z) (x : t) : t :=
  mk (used_behaviours x) (prev_behav x) v (phase x) (completed x)
    (session_time x) (set_count x) (exercise_count x) (performance x)
    (score x) (target x) (set_performance_list x) (set_score_list x)
    (exercise_performance_list x) (exercise_score_list x)
    (session_performance_list x).

Definition set_phase (v : Z) (x : t) : t :=
  mk (used_behaviours x) (prev_behav x) (goal_level x) v (completed x)
    (session_time x) (set_count x) (exercise_count x) (performance x)
    (score x) (target x) (set_performance_list x) (set_score_list x)
    (exercise_performance_list x) (exercise_score_list x)
    (session_performance_list x).

Definition set_completed (v : Completed) (x : t) : t :=
  mk (used_behaviours x) (prev_behav x) (goal_level x) (phase x) v
    (session_time x) (set_count x) (exercise_count x) (performance x)
    (score x) (target x) (set_performance_list x) (set_score_list x)
    (exercise_performance_list x) (exercise_score_list x)
    (session_performance_list x).

Definition set_session_time (v : Z) (x : t) : t :=
  mk (used_behaviours x) (prev_behav x) (goal_level x) (phase x)
    (completed x) v (set_count x) (exercise_count x) (performance x)
    (score x) (target x) (set_performance_list x) (set_score_list x)
    (exercise_performance_list x) (exercise_score_list x)
    (session_performance_list x).

Definition set_set_count (v : Z) (x : t) : t :=
  mk (used_behaviours x) (prev_behav x) (goal_level x) (phase x)
    (completed x) (session_time x) v (exercise_count x) (performance x)
    (score x) (target x) (set_performance_list x) (set_score_list x)
    (exercise_performance_list x) (exercise_score_list x)
    (session_performance_list x).

Definition set_exercise_count (v : Z) (x : t) : t :=
  mk (used_behaviours x) (prev_behav x) (goal_level x) (phase x)
    (completed x) (session_time x) (set_count x) v (performance x) (score x)
    (target x) (set_performance_list x) (set_score_list x)
    (exercise_performance_list x) (exercise_score_list x)
    (session_performance_list x).

End controller.

(** ** The class attributes that [nodes.py] reads *)

(** [PolicyWrapper.<name>] for the name of a goal level, a phase or a
    performance level, the way [nodes.py] writes these constants.  The body
    of class [PolicyWrapper] names them only inside the string literal of
    lines 36 to 50 of [policy_wrapper.py]; the class has no base class and
    binds nothing but its methods, and the wrapper itself reads the constants
    from [config].  So the lookup finds no attribute and raises
    [AttributeError]. *)
Definition PolicyWrapper_getattr (name : string) : Exn + Z :=
  inl AttributeError.

(** ** The body of a [run] callback *)

(** A body works on a state [St] (the blackboard, the globals of
    [controller]) and either goes on with a value or ends there, with the
    state it has reached: by a [return] of a status, by an exception, or at a
    file. *)
Definition Body (St A : Type) : Type := St → (Result + A) * St.

#[global] Instance Body_ret {St : Type} : MRet (Body St) :=
  λ A a st, (inr a, st).

#[global] Instance Body_bind {St : Type} : MBind (Body St) :=
  λ A B k m st,
    match m st with
    | (inl r, st) => (inl r, st)
    | (inr a, st) => k a st
    end.

(** [return NodeStatus(...)] before the end of the body, or [raise]. *)
Definition leave {St A : Type} (r : Result) : Body St A := λ st, (inl r, st).

(** An assignment to a slot of the state. *)
Definition assign {St : Type} (f : St → St) : Body St unit :=
  λ st, (inr tt, f st).

(** The value of an expression over the state. *)
Definition read {St A : Type} (f : St → A) : Body St A :=
  λ st, (inr (f st), st).

(** The expression [PolicyWrapper.<name>]. *)
Definition PolicyWrapper_attr {St : Type} (name : string) : Body St Z :=
  λ st, match PolicyWrapper_getattr name with
        | inl e => (inl (Raise e), st)
        | inr v => (inr v, st)
        end.

(** The expression [x == PolicyWrapper.<name>]. *)
Definition equals {St : Type} (x : option Z) (name : string) : Body St bool :=
  v ← PolicyWrapper_attr name; mret (bool_decide (x = Some v)).

(** [a or b] and [a and b]: the right operand is evaluated only when the
    left one does not decide. *)
Definition py_or {St : Type} (a b : Body St bool) : Body St bool :=
  x ← a; if x : bool then mret true else b.

Definition py_and {St : Type} (a b : Body St bool) : Body St bool :=
  x ← a; if x : bool then b else mret false.

(** A body run from a state: how it ends, and the state it leaves. *)
Definition callback {St : Type} (m : Body St Result) (st : St) : Result * St :=
  match m st with
  | (inl r, st) => (r, st)
  | (inr r, st) => (r, st)
  end.

(** The state of the nodes that work on the blackboard and on the globals of
    [controller]. *)
Definition World : Type := nodedata.t * controller.t.

Definition on_nodedata (f : nodedata.t → nodedata.t) : Body World unit :=
  assign (λ w, (f w.1, w.2)).

Definition on_controller (f : controller.t → controller.t) : Body World unit :=
  assign (λ w, (w.1, f w.2)).

(** ** [round] *)

(** The built-in [round] with one argument: the nearest integer, a tie going
    to the even neighbour. *)
Definition round (x : Q) : Z :=
  let f := Qfloor x in
  match (x - inject_Z f ?= 1 # 2)%Q with
  | Lt => f
  | Gt => f + 1
  | Eq => if Z.even f then f else f + 1
  end.

(** ** [GetBehaviour] *)

Module GetBehaviour.

(** The attributes of the node that [run] reads. *)
Record self : Type := mk {
  state : State;
  goal_level : Z;
  performance : Performance;
  phase : Z
}.

(** Lines 124 to 135 of [run], once the right-hand side of the tuple
    assignment has yielded [behaviour] and [obs_behaviour]: store both; then
    the test of line 128, whose right operand is reached only for a behaviour
    that was used before; then [controller.prev_behav]. *)
Definition select (s : self) (behaviour obs_behaviour : Behaviour)
  : Body World unit :=
  on_nodedata (nodedata.set_behaviour (Some behaviour));;
  on_nodedata (nodedata.set_obs_behaviour (Some obs_behaviour));;
  repeated ←
    py_and (read (λ w, bool_decide (behaviour ∈ controller.used_behaviours w.2)))
      (py_or (equals (Some (goal_level s)) "SESSION_GOAL")
         (py_or (equals (Some (goal_level s)) "EXERCISE_GOAL")
            (equals (Some (goal_level s)) "SET_GOAL")));
  (if repeated : bool then
     on_nodedata (nodedata.set_behaviour (Some A_PREINSTRUCTION))
   else
     on_controller (λ ctl, controller.set_used_behaviours
                             (controller.used_behaviours ctl ++ [behaviour])
                             ctl));;
  b ← read (λ w, nodedata.behaviour w.1);
  on_controller (controller.set_prev_behav b).

Section Run.
Context {Rng : Type} (policy : Policy Rng).

(** [run] from the tuple assignment of line 124 on, for the value [reply]
    that the call of [policy.get_behaviour] returned.  An int cannot be
    unpacked: the assignment raises [TypeError] and nothing is stored. *)
Definition run_from (s : self) (reply : PyValue) (gen : Rng)
    (nd : nodedata.t) (ctl : controller.t)
  : Result * nodedata.t * controller.t * Rng :=
  match reply with
  | PyBehaviour _ => (Raise TypeError, nd, ctl, gen)
  | PyTuple b ob =>
      match select s b ob (nd, ctl) with
      | (inl r, (nd, ctl)) => (r, nd, ctl, gen)
      | (inr _, (nd, ctl)) =>
          let '(obs, gen) := get_observation policy (state s) ob gen in
          (Return SUCCESS, nodedata.set_observation (Some obs) nd, ctl, gen)
      end
  end.

(** [GetBehaviour.run]. *)
Definition run (fuel : nat) (s : self) (gen : Rng)
    (nd : nodedata.t) (ctl : controller.t)
  : option (Result * nodedata.t * controller.t * Rng) :=
  '(reply, gen) ← get_behaviour policy fuel (state s) (goal_level s)
                    (performance s) (phase s) gen;
  Some (run_from s reply gen nd ctl).

End Run.
End GetBehaviour.

(** ** [CheckForBehaviour] *)

Module CheckForBehaviour.

Record self : Type := mk {
  behaviour : option Behaviour;
  check_behaviour : option Behaviour
}.

(** [CheckForBehaviour.configure]. *)
Definition configure (nd : nodedata.t) : self :=
  mk (nodedata.behaviour nd) (nodedata.check_behaviour nd).

(** [CheckForBehaviour._is_example_of_behaviour]. *)
Definition _is_example_of_behaviour (behaviour check_behaviour : option Behaviour)
  : bool :=
  let check_list :=
    if bool_decide (check_behaviour = Some A_PREINSTRUCTION) then
      [A_PREINSTRUCTION; A_PREINSTRUCTION_PRAISE; A_PREINSTRUCTION_QUESTIONING;
       A_PREINSTRUCTION_POSITIVEMODELING; A_POSITIVEMODELING_PREINSTRUCTION;
       A_PREINSTRUCTION_FIRSTNAME; A_PREINSTRUCTION_MANUALMANIPULATION;
       A_PREINSTRUCTION_NEGATIVEMODELING; A_MANUALMANIPULATION_PREINSTRUCTION]
    else
      [A_QUESTIONING; A_PREINSTRUCTION_QUESTIONING; A_QUESTIONING_FIRSTNAME;
       A_QUESTIONING_POSITIVEMODELING; A_POSITIVEMODELING_QUESTIONING;
       A_CONCURRENTINSTRUCTIONPOSITIVE_QUESTIONING; A_MANUALMANIPULATION_QUESTIONING;
       A_POSTINSTRUCTIONNEGATIVE_QUESTIONING; A_POSTINSTRUCTIONPOSITIVE_QUESTIONING;
       A_QUESTIONING_NEGATIVEMODELING] in
  match behaviour with
  | Some b => bool_decide (b ∈ check_list)
  | None => false
  end.

(** [CheckForBehaviour.run]. *)
Definition run (s : self) (ctl : controller.t) : Result * controller.t :=
  if _is_example_of_behaviour (behaviour s) (check_behaviour s) then
    (Return SUCCESS, controller.set_used_behaviours [] ctl)
  else
    (Return FAIL, ctl).

End CheckForBehaviour.

(** ** [CreateSubgoal] *)

Module CreateSubgoal.

Record self : Type := mk { previous_goal_level : Z }.

(** [CreateSubgoal.configure]: [nodedata.get_data('goal', -1)]. *)
Definition configure (nd : nodedata.t) : self :=
  mk (default (-1) (nodedata.goal nd)).

(** [CreateSubgoal.run]. *)
Definition run (s : self) (nd : nodedata.t) : Result * nodedata.t :=
  callback
    (action_goal ← PolicyWrapper_attr "ACTION_GOAL";
     if bool_decide (previous_goal_level s > action_goal) then
       mret (Return FAIL)
     else
       assign (nodedata.set_new_goal (Some (previous_goal_level s + 1)));;
       mret (Return SUCCESS))
    nd.

End CreateSubgoal.

(** ** [EndSubgoal] *)

Module EndSubgoal.

Record self : Type := mk { goal_level : Z }.

(** [EndSubgoal.configure]: [nodedata.get_data('goal', -1)]. *)
Definition configure (nd : nodedata.t) : self :=
  mk (default (-1) (nodedata.goal nd)).

(** The body of [EndSubgoal.run].  The module binds [time] by
    [from time import time], so [time.sleep(5.0)], written for the new goal
    [-1], looks up [sleep] on a built-in function, which has no such
    attribute. *)
Definition body (s : self) : Body World Result :=
  if bool_decide (goal_level s > 4) then
    mret (Return FAIL)
  else
    feedback ←
      py_or (py_and (equals (Some (goal_level s)) "SET_GOAL")
               (read (λ w, bool_decide (controller.set_count w.2 = 2))))
        (py_or (equals (Some (goal_level s)) "EXERCISE_GOAL")
           (equals (Some (goal_level s)) "SESSION_GOAL"));
    (if feedback : bool then
       on_controller (λ ctl, controller.set_goal_level
                               (controller.goal_level ctl - 1) ctl);;
       phase_end ← PolicyWrapper_attr "PHASE_END";
       on_controller (controller.set_phase phase_end)
     else
       phase_start ← PolicyWrapper_attr "PHASE_START";
       on_controller (controller.set_phase phase_start));;
    on_nodedata (nodedata.set_new_goal (Some (goal_level s - 1)));;
    phase_start ← PolicyWrapper_attr "PHASE_START";
    on_nodedata (nodedata.set_phase (Some phase_start));;
    on_controller (controller.set_completed COMPLETED_STATUS_TRUE);;
    exercise ← equals (Some (goal_level s)) "EXERCISE_GOAL";
    (if exercise : bool then
       on_controller (λ ctl, controller.set_session_time
                               (controller.session_time ctl + 1) ctl)
     else mret tt);;
    new_goal ← read (λ w, nodedata.new_goal w.1);
    (if bool_decide (new_goal = Some (-1)) then leave (Raise AttributeError)
     else mret tt);;
    mret (Return SUCCESS).

(** [EndSubgoal.run]. *)
Definition run (s : self) (nd : nodedata.t) (ctl : controller.t)
  : Result * nodedata.t * controller.t :=
  let '(r, (nd, ctl)) := callback (body s) (nd, ctl) in (r, nd, ctl).

End EndSubgoal.

(** ** [TimestepCue] *)

Module TimestepCue.

Record self : Type := mk {
  goal_level : option Z;
  phase : option Z
}.

(** [TimestepCue.configure]. *)
Definition configure (nd : nodedata.t) (ctl : controller.t)
  : self * controller.t :=
  (mk (nodedata.goal nd) (nodedata.phase nd),
   controller.set_completed COMPLETED_STATUS_FALSE ctl).

Section Statistics.
(** [statistics.mean] belongs to the Python library: it is taken as it is
    called, on a list of numbers, with the number or the exception it
    answers. *)
Variable mean : list Q → Exn + Q.

(** The expression [mean(<list>)] for a list of the controller. *)
Definition mean_of (data : controller.t → list Q) : Body World Q :=
  λ w, match mean (data w.2) with
       | inl e => (inl (Raise e), w)
       | inr m => (inr m, w)
       end.

(** [nodedata.performance = round(mean(<list>))]. *)
Definition set_mean_performance (performance_list : controller.t → list Z)
  : Body World unit :=
  m ← mean_of (λ ctl, map inject_Z (performance_list ctl));
  on_nodedata (nodedata.set_performance (Some (round m))).

(** [nodedata.score = mean(<list>)]. *)
Definition set_mean_score (score_list : controller.t → list Q)
  : Body World unit :=
  m ← mean_of score_list;
  on_nodedata (nodedata.set_score (Some m)).

(** [nodedata.<slot> = controller.<variable>]. *)
Definition copy {A : Type} (get : controller.t → A)
    (set : A → nodedata.t → nodedata.t) : Body World unit :=
  v ← read (λ w, get w.2); on_nodedata (set v).

(** [nodedata.phase = PolicyWrapper.<name>]. *)
Definition set_phase (name : string) : Body World unit :=
  v ← PolicyWrapper_attr name; on_nodedata (nodedata.set_phase (Some v)).

(** [controller.goal_level = PolicyWrapper.<name>]. *)
Definition set_goal_level (name : string) : Body World unit :=
  v ← PolicyWrapper_attr name; on_controller (controller.set_goal_level v).

(** [controller.<variable> == PolicyWrapper.<name>]. *)
Definition controller_equals (get : controller.t → Z) (name : string)
  : Body World bool :=
  x ← read (λ w, get w.2); equals (Some x) name.

(** The feedback branch of the person and session goals; the embedding stops
    where the source opens the history file of the participant. *)
Definition session_feedback : Body World Result :=
  set_mean_performance controller.session_performance_list;;
  leave FileIO.

(** The body of [TimestepCue.run].  The slots [sessions], [user_impairment]
    and [name] that the person goal copies are not part of the embedded
    blackboard. *)
Definition body (s : self) : Body World Result :=
  if bool_decide (goal_level s = Some (-1)) then
    at_level ← controller_equals controller.goal_level "PERSON_GOAL";
    if at_level : bool then
      at_end ← controller_equals controller.phase "PHASE_END";
      if at_end : bool then session_feedback
      else
        set_phase "PHASE_START";;
        mret (Return SUCCESS)
    else mret (Return ACTIVE)
  else
  is_session ← equals (goal_level s) "SESSION_GOAL";
  if is_session : bool then
    at_level ← controller_equals controller.goal_level "SESSION_GOAL";
    if at_level : bool then
      at_end ← controller_equals controller.phase "PHASE_END";
      if at_end : bool then session_feedback
      else
        copy controller.performance nodedata.set_performance;;
        set_phase "PHASE_START";;
        mret (Return SUCCESS)
    else leave FileIO
  else
  is_exercise ← equals (goal_level s) "EXERCISE_GOAL";
  if is_exercise : bool then
    at_level ← controller_equals controller.goal_level "EXERCISE_GOAL";
    if at_level : bool then
      at_end ← controller_equals controller.phase "PHASE_END";
      if at_end : bool then
        set_mean_performance controller.exercise_performance_list;;
        set_mean_score controller.exercise_score_list;;
        copy controller.target nodedata.set_target;;
        set_phase "PHASE_END";;
        mret (Return SUCCESS)
      else
        copy controller.performance nodedata.set_performance;;
        set_phase "PHASE_START";;
        set_goal_level "SET_GOAL";;
        mret (Return SUCCESS)
    else mret (Return ACTIVE)
  else
  is_set ← equals (goal_level s) "SET_GOAL";
  if is_set : bool then
    at_level ← controller_equals controller.goal_level "SET_GOAL";
    if at_level : bool then
      at_end ← controller_equals controller.phase "PHASE_END";
      if at_end : bool then
        set_phase "PHASE_END";;
        set_mean_performance controller.set_performance_list;;
        set_mean_score controller.set_score_list;;
        copy controller.target nodedata.set_target;;
        mret (Return SUCCESS)
      else
        set_phase "PHASE_START";;
        copy controller.performance nodedata.set_performance;;
        on_controller (controller.set_exercise_count 0);;
        mret (Return SUCCESS)
    else mret (Return ACTIVE)
  else
  is_action ← equals (goal_level s) "ACTION_GOAL";
  if is_action : bool then
    at_level ← controller_equals controller.goal_level "ACTION_GOAL";
    if at_level : bool then
      set_goal_level "SET_GOAL";;
      set_phase "PHASE_END";;
      copy controller.performance nodedata.set_performance;;
      copy controller.score nodedata.set_score;;
      copy controller.target nodedata.set_target;;
      mret (Return SUCCESS)
    else mret (Return ACTIVE)
  else
    good ← PolicyWrapper_attr "GOOD";
    on_nodedata (nodedata.set_performance (Some good));;
    set_phase "PHASE_START";;
    on_nodedata (nodedata.set_target (Some (80 # 100)));;
    on_nodedata (nodedata.set_score (Some (79 # 100)));;
    mret (Return SUCCESS).

(** [TimestepCue.run]. *)
Definition run (s : self) (nd : nodedata.t) (ctl : controller.t)
  : Result * nodedata.t * controller.t :=
  let '(r, (nd, ctl)) := callback (body s) (nd, ctl) in (r, nd, ctl).

End Statistics.
End TimestepCue.

(** ** [EndSetEvent] *)

Module EndSetEvent.

Record self : Type := mk {
  exercisecount : Z;
  firstTime : bool
}.

(** [EndSetEvent.configure]. *)
Definition configure (ctl : controller.t) : self :=
  mk (controller.exercise_count ctl) (bool_decide (controller.set_count ctl = 0)).

(** What [run] changes outside [controller]: the flag
    [api_classes.expecting_action_goal] and the number of stop requests
    posted to the robot. *)
Record outside : Type := mkOutside {
  expecting_action_goal : bool;
  stops_posted : nat
}.

(** [EndSetEvent.run]. *)
Definition run (s : self) (ctl : controller.t) (o : outside)
  : Result * controller.t * outside :=
  if (bool_decide (firstTime s = true) && bool_decide (exercisecount s >= 10))
     || (bool_decide (firstTime s = false) && bool_decide (exercisecount s >= 5))
  then
    let ctl := controller.set_completed COMPLETED_STATUS_TRUE ctl in
    let ctl := controller.set_set_count (controller.set_count ctl + 1) ctl in
    (Return SUCCESS, ctl, mkOutside false (S (stops_posted o)))
  else
    (Return FAIL, ctl, o).

End EndSetEvent.

(** ** [FormatAction] *)

Module FormatAction.

(** The arguments with which [run] builds the [Action] it stores: with the
    score and the target, or without them. *)
Inductive Action (Msg Demo : Type) : Type :=
| Plain (pre_msg : Msg) (demo : option Demo) (question : option string)
| Scored (pre_msg : Msg) (score target : option Q)
    (demo : option Demo) (question : option string).
Arguments Plain {Msg Demo} _ _ _.
Arguments Scored {Msg Demo} _ _ _ _ _.

(** The behaviours for which [run] asks the library for a demonstration. *)
Definition demo_behaviours : list Behaviour :=
  [A_POSITIVEMODELING; A_NEGATIVEMODELING;
   A_PREINSTRUCTION_POSITIVEMODELING; A_PREINSTRUCTION_NEGATIVEMODELING;
   A_POSTINSTRUCTIONPOSITIVE_POSITIVE_MODELING;
   A_POSTINSTRUCTIONPOSITIVE_NEGATIVE_MODELING;
   A_POSTINSTRUCTIONNEGATIVE_POSITIVEMODELING;
   A_POSTINSTRUCTIONNEGATIVE_NEGATIVEMODELING;
   A_QUESTIONING_NEGATIVEMODELING;
   A_POSITIVEMODELING_POSTINSTRUCTIONPOSITIVE;
   A_NEGATIVEMODELING_POSTINSTRUCTIONNEGATIVE;
   A_POSITIVEMODELING_PREINSTRUCTION; A_SCOLD_POSITIVEMODELING;
   A_CONCURRENTINSTRUCTIONPOSITIVE_POSITIVEMODELING;
   A_CONCURRENTINSTRUCTIONNEGATIVE_NEGATIVEMODELING;
   A_MANUALMANIPULATION_POSITIVEMODELING; A_QUESTIONING_POSITIVEMODELING;
   A_POSITIVEMODELING_CONCURRENTINSTRUCTIONPOSITIVE;
   A_POSITIVEMODELING_QUESTIONING; A_POSITIVEMODELING_HUSTLE;
   A_POSITIVEMODELING_PRAISE].

(** The behaviours to which [run] attaches a question. *)
Definition question_behaviours : list Behaviour :=
  [A_QUESTIONING; A_QUESTIONING_FIRSTNAME;
   A_QUESTIONING_POSITIVEMODELING;
   A_POSITIVEMODELING_QUESTIONING; A_QUESTIONING_NEGATIVEMODELING].

Section Library.
(** The behaviour library and the values it is handed are outside src/: its
    two functions are taken as they are called. *)
Context {Msg Demo Name Exercise Hand : Type}.
Variable get_pre_msg :
  option Behaviour → option Z → Performance → option Z → Name → Exercise →
  bool → Msg.
Variable get_demo_string :
  option Behaviour → option Z → Exercise → Hand → Demo.

(** The attributes that [configure] leaves on the node for [run]. *)
Record self : Type := mk {
  goal_level : option Z;
  performance : Performance;
  phase : option Z;
  score : option Q;
  target : option Q;
  behaviour : option Behaviour;
  name : Name;
  exercise : Exercise
}.

(** [behaviour in list] for a slot that may hold [None]. *)
Definition among (b : option Behaviour) (l : list Behaviour) : bool :=
  match b with
  | Some b => bool_decide (b ∈ l)
  | None => false
  end.

(** [FormatAction.run], from a blackboard that holds no action yet: how it
    ends, the action stored on the blackboard if any, and the value of
    [controller.given_score]. *)
Definition run (s : self) (ctl : controller.t) (given_score : Z)
    (leftHand : Hand)
  : Result * option (Action Msg Demo) * Z :=
  let '(r, (action, given_score)) :=
    callback
      (if negb (bool_decide (behaviour s = Some A_SILENCE)) then
         let demo :=
           if among (behaviour s) demo_behaviours
           then Some (get_demo_string (behaviour s) (goal_level s)
                        (exercise s) leftHand)
           else None in
         question ←
           (if among (behaviour s) question_behaviours then
              action_goal ← equals (goal_level s) "ACTION_GOAL";
              mret (Some (if action_goal : bool then "Concurrent"%string
                          else "GoodBad"%string))
            else mret None);
         let pre_msg :=
           get_pre_msg (behaviour s) (goal_level s) (performance s) (phase s)
             (name s) (exercise s)
             (bool_decide (controller.set_count ctl = 2)) in
         given ← read snd;
         (if (bool_decide (score s = None)
              && bool_decide (performance s = None))
             || bool_decide (given >= 2)
          then assign (λ st, (Some (Plain pre_msg demo question), st.2))
          else
            assign (λ st, (Some (Scored pre_msg (score s) (target s) demo
                                   question), st.2));;
            counted ←
              py_or (equals (goal_level s) "EXERCISE_GOAL")
                (py_or (equals (goal_level s) "SESSION_GOAL")
                   (equals (goal_level s) "PERSON_GOAL"));
            if counted : bool then assign (λ st, (st.1, st.2 + 1))
            else mret tt);;
         mret (Return SUCCESS)
       else
         mret (Return FAIL))
      (None, given_score) in
  (r, action, given_score).

End Library.
End FormatAction.

(** ** [GetDuration] and [DurationCheck] *)

Module GetDuration.

(** [GetDuration.run]: the status and the value stored in
    [nodedata.session_duration]. *)
Definition run : Result * Z := (Return SUCCESS, 1).

End GetDuration.

Module DurationCheck.

Record self : Type := mk {
  start_time : Z;
  session_duration : Z;
  current_time : Z
}.

(** [DurationCheck.configure], for the values that the blackboard holds in
    its slots [start_time] and [session_duration]. *)
Definition configure (start_time session_duration : Z) (ctl : controller.t)
  : self :=
  mk start_time session_duration (controller.session_time ctl).

(** [DurationCheck.run]. *)
Definition run (s : self) : Result :=
  if bool_decide (current_time s - start_time s < session_duration s)
  then Return FAIL
  else Return SUCCESS.

End DurationCheck.

(** ** [InitialiseBlackboard] *)

Module InitialiseBlackboard.

Record self : Type := mk {
  impairment : Z;
  experience : string
}.

(** [InitialiseBlackboard.configure], for the value that the blackboard holds
    in its slot [user_impairment]. *)
Definition configure (user_impairment : Z) : self :=
  mk user_impairment
     (if bool_decide (user_impairment < 4) then "low"%string
      else "high"%string).

(** The belief distribution that [run] builds from [controller.policy]. *)
Definition belief_distribution (s : self) (policy : Z) : list Z :=
  if bool_decide (policy = -1) then
    if bool_decide (experience s = "high"%string)
    then [0; 0; 0; 1; 0; 0; 0; 0; 0; 0; 0; 0]
    else [0; 0; 0; 0; 0; 0; 0; 0; 1; 0; 0; 0]
  else
    map (λ i : Z, if bool_decide (policy = i) then 1 else 0)
      (map Z.of_nat (seq 0 12)).

(** One pass of the loop of [run] over the belief distribution; the
    accumulator is [(style, max_style, max_belief)]. *)
Definition scan (acc : Z * Z * Z) (b : Z) : Z * Z * Z :=
  let '(style, max_style, max_belief) := acc in
  if bool_decide (b > max_belief) then (style + 1, style, b)
  else (style + 1, max_style, max_belief).

(** The style that the loop of [run] selects. *)
Definition max_style (belief : list Z) : Z :=
  (fold_left scan belief (0, 0, 0)).1.2.

(** [InitialiseBlackboard._get_start]. *)
Definition _get_start (style : Z) : State :=
  if bool_decide (style = 0) then 0
  else if bool_decide (style = 1) then 45
  else if bool_decide (style = 2) then 90
  else if bool_decide (style = 3) then 135
  else if bool_decide (style = 4) then 180
  else if bool_decide (style = 5) then 225
  else if bool_decide (style = 6) then 270
  else if bool_decide (style = 7) then 323
  else if bool_decide (style = 8) then 376
  else if bool_decide (style = 9) then 429
  else if bool_decide (style = 10) then 482
  else 535.

(** The slots that [run] has set on the blackboard when it ends, [None] for a
    slot it has not reached, and how it ends. *)
Record written : Type := mkWritten {
  belief : list Z;
  state : State;
  performance : Z;
  phase : option Z;
  start_time : option Z;
  outcome : Result
}.

(** [InitialiseBlackboard.run], up to the point where it opens the history
    file of the participant. *)
Definition run (s : self) (policy : Z) : written :=
  let belief := belief_distribution s policy in
  let state := _get_start (max_style belief) in
  match PolicyWrapper_getattr "PHASE_START" with
  | inl e => mkWritten belief state (-1) None None (Raise e)
  | inr phase_start =>
      mkWritten belief state (-1) (Some phase_start) (Some 0) FileIO
  end.

End InitialiseBlackboard.

(** A node of [FormatAction] at a given goal level that has a score to
    report, for a library whose messages and demonstrations carry no
    content. *)
Definition scoring_node (level : Z) (b : Behaviour)
  : @FormatAction.self unit unit :=
  FormatAction.mk (Some level) (Some GOOD) (Some PHASE_END) (Some (79 # 100))
    (Some (80 # 100)) (Some b) tt tt.

(** ** Sampler stubs and sample inputs *)

(** A sampler that draws the same behaviour whatever the state, and never
    leaves the state it is asked about. *)
Definition constant_policy (b : Behaviour) : Policy unit := {|
  sample_action _ gen := (b, gen);
  sample_observation s _ gen := (s, gen)
|}.

(** A call received by the scripted sampler. *)
Inductive Call : Type :=
| SampleAction (s : State)
| SampleObservation (s : State) (action : Behaviour).

(** The generator state of the scripted sampler: the draws still to come and
    the calls received so far, oldest first. *)
Record Tape : Type := mkTape {
  script : list Behaviour;
  calls : list Call
}.

(** A sampler that draws the behaviours of its script in order (silence once
    the script is over), moves from state [s] to state [s + 1] on every
    observation, and records each call. *)
Definition scripted_policy : Policy Tape := {|
  sample_action s t :=
    match script t with
    | b :: rest => (b, mkTape rest (calls t ++ [SampleAction s]))
    | [] => (A_SILENCE, mkTape [] (calls t ++ [SampleAction s]))
    end;
  sample_observation s a t :=
    (s + 1, mkTape (script t) (calls t ++ [SampleObservation s a]))
|}.

(** A blackboard on which nothing has been set yet. *)
Definition blank_nodedata : nodedata.t :=
  nodedata.mk None None None None None None None None None None.

(** The globals of [controller] in the middle of a set: [used] are the
    behaviours used so far, [sets] the sets completed and [reps] the
    repetitions counted in the current set. *)
Definition sample_controller (used : list Behaviour) (sets reps : Z)
  : controller.t :=
  controller.mk used None SET_GOAL PHASE_END COMPLETED_STATUS_FALSE 0 sets reps
    (Some GOOD) (Some (79 # 100)) (Some (80 # 100))
    [0; 1; 2] [1 # 2; 7 # 10] [0; 1; 2] [1 # 2; 7 # 10] [1].

(** The repetitions a set needs before it can end: 10 in the first set of the
    session, 5 in every later one. *)
Definition set_threshold (set_count : Z) : Z :=
  if bool_decide (set_count = 0) then 10 else 5.

(** A behaviour that a sampler can draw for ever without [get_behaviour]
    accepting it: it is not valid, and it is not a manual-manipulation
    compound with a valid base either. *)
Definition stubborn (goal_level : Z) (performance : Performance) (phase : Z)
    (b : Behaviour) : Prop :=
  (b ∉ _get_valid_list goal_level performance phase)
  ∧ (∀ base, manual_manipulation_base b = Some base →
             base ∉ _get_valid_list goal_level performance phase).

(** What the passes of the loop keep true of the retry counter. *)
Definition count_bounded {Rng : Type} (l : Locals Rng) : Prop :=
  0 ≤ count l ≤ 12
  ∧ (count l = 12 → manual_manipulation_base (behaviour l) = None).

(** A behaviour library whose messages and demonstrations carry no
    content. *)
Definition no_pre_msg (_ : option Behaviour) (_ : option Z) (_ : Performance)
    (_ : option Z) (_ _ : unit) (_ : bool) : unit := tt.
Definition no_demo_string (_ : option Behaviour) (_ : option Z) (_ _ : unit)
  : unit := tt.

(** What the loop of [InitialiseBlackboard.run] has established after the
    beliefs [seen]: the style counts them, no belief seen is above
    [max_belief], and [max_style] is 0 as long as no belief was positive, the
    first position of [max_belief] afterwards. *)
Definition scanned (seen : list Z) (acc : Z * Z * Z) : Prop :=
  let '(style, max_style, max_belief) := acc in
  style = Z.of_nat (length seen)
  ∧ Forall (λ b, b ≤ max_belief) seen
  ∧ ((max_belief = 0 ∧ max_style = 0)
     ∨ (0 < max_belief ∧ 0 ≤ max_style
        ∧ seen !! Z.to_nat max_style = Some max_belief
        ∧ Forall (λ b, b < max_belief) (take (Z.to_nat max_style) seen))).

(** * Properties *)

(** ** The policy wrapper *)

Section WrapperFacts.
Context {Rng : Type} (policy : Policy Rng).

(** The loop can only be left with a behaviour of the valid list. *)
Lemma while_not_valid_sound fuel valid g (l l' : Locals Rng) :
  while_not_valid policy fuel valid g l = Some l' → behaviour l' ∈ valid.
Proof.
  revert l. induction fuel as [|fuel IH]; intros l; simpl;
    case_bool_decide as Hv; intros H; simplify_eq; eauto.
Qed.

(** Extra fuel does not change an answer. *)
Lemma while_not_valid_more_fuel fuel extra valid g (l l' : Locals Rng) :
  while_not_valid policy fuel valid g l = Some l' →
  while_not_valid policy (fuel + extra) valid g l = Some l'.
Proof.
  revert l. induction fuel as [|fuel IH]; intros l; simpl.
  - case_bool_decide as Hv; intros H; simplify_eq.
    destruct extra; simpl; rewrite bool_decide_eq_true_2; done.
  - case_bool_decide as Hv; intros H; simplify_eq; eauto.
Qed.

(** A property of the locals that one pass keeps and that excludes the valid
    behaviours keeps the loop running whatever the fuel. *)
Lemma while_not_valid_diverges (I : Locals Rng → Prop) valid g :
  (∀ l, I l → behaviour l ∉ valid) →
  (∀ l, I l → I (loop_body policy g l)) →
  ∀ fuel l, I l → while_not_valid policy fuel valid g l = None.
Proof.
  intros Hinv Hstep fuel. induction fuel as [|fuel IH]; intros l Hl; simpl;
    rewrite bool_decide_eq_false_2 by auto; auto.
Qed.

(** What [get_behaviour] returns is a bare behaviour of the valid list. *)
Lemma get_behaviour_sound fuel st g p ph gen v gen' :
  get_behaviour policy fuel st g p ph gen = Some (v, gen') →
  ∃ b, v = PyBehaviour b ∧ b ∈ _get_valid_list g p ph.
Proof.
  unfold get_behaviour. intros H.
  destruct (while_not_valid _ _ _ _ _) as [l|] eqn:Hl; simplify_eq/=.
  eauto using while_not_valid_sound.
Qed.

End WrapperFacts.

(** Silence is on the valid list of the action goal, and of any level that
    the list treats as the action goal. *)
Lemma silence_valid g p ph :
  g ≠ PERSON_GOAL → g ≠ SESSION_GOAL → g ≠ EXERCISE_GOAL → g ≠ SET_GOAL →
  A_SILENCE ∈ _get_valid_list g p ph.
Proof.
  intros. unfold _get_valid_list.
  rewrite !bool_decide_eq_false_2 by tauto. apply elem_of_app; left; constructor.
Qed.

(** The base of a manual-manipulation compound is not itself a compound. *)
Lemma manual_manipulation_base_atomic b base :
  manual_manipulation_base b = Some base → manual_manipulation_base base = None.
Proof. destruct b; simpl; intros H; simplify_eq; reflexivity. Qed.

(** Membership of a given behaviour in a list of given behaviours, and its
    negation, are settled by evaluation. *)
Ltac by_evaluation := apply (bool_decide_unpack _); vm_compute; exact I.

(** At a session, exercise or set goal, plain pre-instruction is on the valid
    list in the Start phase and in no other. *)
Lemma preinstruction_valid_iff_start g p ph :
  g = SESSION_GOAL ∨ g = EXERCISE_GOAL ∨ g = SET_GOAL →
  A_PREINSTRUCTION ∈ _get_valid_list g p ph ↔ ph = PHASE_START.
Proof.
  intros Hg. unfold _get_valid_list.
  rewrite (bool_decide_eq_false_2 (g = PERSON_GOAL))
    by (unfold PERSON_GOAL, SESSION_GOAL, EXERCISE_GOAL, SET_GOAL in *; lia).
  rewrite (bool_decide_eq_true_2 _ Hg).
  split.
  - intros Hin. destruct (decide (ph = PHASE_START)) as [|Hne]; [done|].
    exfalso. rewrite (bool_decide_eq_false_2 _ Hne) in Hin.
    revert Hin. repeat case_bool_decide; by_evaluation.
  - intros ->. rewrite bool_decide_eq_true_2 by done.
    rewrite !elem_of_app. right; left. constructor.
Qed.

(** C5: with goal level Person and phase End, [get_behaviour] returns the End
    marker for every sampler, state, performance and amount of fuel, and the
    generator comes back untouched: the sampler is not consulted. *)
Theorem C5_person_end_returns_end_marker {Rng : Type} (policy : Policy Rng)
    (fuel : nat) (st : State) (p : Performance) (gen : Rng) :
  get_behaviour policy fuel st PERSON_GOAL p PHASE_END gen
  = Some (PyBehaviour A_END, gen).
Proof. destruct fuel; reflexivity. Qed.

(** ** The decision step driver *)



(** ** The loop of the wrapper *)

Section Termination.
Context {Rng : Type} (policy : Policy Rng).

(** At the action goal one pass is enough: the first draw if it is valid,
    silence if not. *)
Lemma get_behaviour_action_goal fuel st p ph gen :
  ∃ b gen',
    get_behaviour policy (S fuel) st ACTION_GOAL p ph gen
    = Some (PyBehaviour b, gen')
    ∧ b ∈ _get_valid_list ACTION_GOAL p ph.
Proof.
  unfold get_behaviour, initial_locals.
  rewrite bool_decide_eq_false_2 by (intros [? _]; discriminate).
  destruct (sample_action policy st gen) as [b r].
  cbn [while_not_valid behaviour].
  case_bool_decide as Hb; [by exists b, r|].
  assert (Hs : A_SILENCE ∈ _get_valid_list ACTION_GOAL p ph)
    by (by apply silence_valid).
  exists A_SILENCE, r. split; [|done].
  unfold loop_body. rewrite bool_decide_eq_true_2 by done.
  destruct fuel; cbn [while_not_valid behaviour rng mbind option_bind];
    by rewrite bool_decide_eq_true_2.
Qed.

(** Below the action goal, one pass of the loop takes a stubborn behaviour to
    a stubborn behaviour when every draw of the sampler is stubborn. *)
Lemma loop_body_stubborn g p ph (l : Locals Rng) :
  g ≠ ACTION_GOAL →
  (∀ s r, stubborn g p ph (sample_action policy s r).1) →
  stubborn g p ph (behaviour l) →
  stubborn g p ph (behaviour (loop_body policy g l)).
Proof.
  intros Hg Hdraw [Hl Hbase]. unfold loop_body.
  rewrite bool_decide_eq_false_2 by done.
  case_bool_decide as Hcount.
  - specialize (Hdraw (state l) (rng l)).
    by destruct (sample_action policy (state l) (rng l)).
  - destruct (manual_manipulation_base (behaviour l)) as [base|] eqn:Hm.
    + cbn [behaviour]. split; [by apply Hbase|]. intros base' Hm'.
      by rewrite (manual_manipulation_base_atomic _ _ Hm) in Hm'.
    + destruct (sample_observation policy _ _ _) as [s r].
      specialize (Hdraw s r). by destruct (sample_action policy s r).
Qed.

(** Hence [get_behaviour] never returns below the action goal when every
    draw is stubborn, unless it is the person goal in its End phase. *)
Lemma get_behaviour_stubborn_diverges fuel st g p ph gen :
  g ≠ ACTION_GOAL → ¬ (g = PERSON_GOAL ∧ ph = PHASE_END) →
  (∀ s r, stubborn g p ph (sample_action policy s r).1) →
  get_behaviour policy fuel st g p ph gen = None.
Proof.
  intros Hg Hpe Hdraw. unfold get_behaviour.
  rewrite (while_not_valid_diverges policy
             (λ l, stubborn g p ph (behaviour l))); [done|..].
  - by intros l [? _].
  - intros l. by apply loop_body_stubborn.
  - unfold initial_locals. rewrite bool_decide_eq_false_2 by done.
    specialize (Hdraw st gen). by destruct (sample_action policy st gen).
Qed.

End Termination.

(** The constant stub keeps resampling the same invalid behaviour while the
    count is at most 10. *)
Lemma constant_policy_resamples b valid g st (n : nat) (c : Z) k :
  g ≠ ACTION_GOAL → b ∉ valid → c + Z.of_nat n ≤ 11 →
  while_not_valid (constant_policy b) (n + k) valid g (mkLocals b st c tt)
  = while_not_valid (constant_policy b) k valid g
      (mkLocals b st (c + Z.of_nat n) tt).
Proof.
  intros Hg Hb. revert c. induction n as [|n IH]; intros c Hc.
  - by rewrite Z.add_0_r.
  - cbn [while_not_valid Nat.add behaviour].
    rewrite bool_decide_eq_false_2 by done.
    unfold loop_body. rewrite bool_decide_eq_false_2 by done.
    cbn [count state rng sample_action constant_policy behaviour].
    rewrite bool_decide_eq_true_2 by lia.
    cbn [count state rng behaviour].
    rewrite IH by lia.
    by replace (c + 1 + Z.of_nat n) with (c + Z.of_nat (S n)) by lia.
Qed.

(** With the constant stub of a manual-manipulation compound that is invalid
    but has a valid base, [get_behaviour] returns the base after 12 passes. *)
Lemma get_behaviour_constant_compound b base fuel st g p ph :
  g ≠ ACTION_GOAL → ¬ (g = PERSON_GOAL ∧ ph = PHASE_END) →
  b ∉ _get_valid_list g p ph →
  manual_manipulation_base b = Some base →
  base ∈ _get_valid_list g p ph →
  get_behaviour (constant_policy b) (12 + fuel) st g p ph tt
  = Some (PyBehaviour base, tt).
Proof.
  intros Hg Hpe Hb Hm Hbase. unfold get_behaviour, initial_locals.
  rewrite bool_decide_eq_false_2 by done.
  cbn [sample_action constant_policy].
  change (12 + fuel)%nat with (11 + S fuel)%nat.
  rewrite constant_policy_resamples by (done || lia).
  cbn [while_not_valid behaviour Z.add Z.of_nat Pos.of_succ_nat].
  rewrite bool_decide_eq_false_2 by done.
  unfold loop_body. rewrite bool_decide_eq_false_2 by done.
  cbn [count state rng behaviour].
  rewrite bool_decide_eq_false_2 by (simpl; lia).
  rewrite Hm. cbn [count state rng behaviour].
  destruct fuel; cbn [while_not_valid behaviour rng mbind option_bind];
    by rewrite bool_decide_eq_true_2.
Qed.

(** C2, as amended: [get_behaviour] has no retry ceiling.  At the action goal
    it returns a behaviour of the valid list after at most one pass of its
    loop, for every sampler.  Below the action goal (the End phase of the
    person goal apart, where nothing is sampled) a sampler whose every draw
    is invalid, and is not a manual-manipulation compound with a valid base,
    keeps it looping whatever the fuel; a stub that always draws one
    manual-manipulation compound with a valid base makes it return that base
    within 12 passes. *)
Theorem C2_termination_without_ceiling {Rng : Type} (policy : Policy Rng)
    (st : State) (g : Z) (p : Performance) (ph : Z) (gen : Rng) :
  (g = ACTION_GOAL →
   ∀ fuel, ∃ b gen',
     get_behaviour policy (S fuel) st g p ph gen = Some (PyBehaviour b, gen')
     ∧ b ∈ _get_valid_list g p ph)
  ∧ (g ≠ ACTION_GOAL → ¬ (g = PERSON_GOAL ∧ ph = PHASE_END) →
     (∀ s r, stubborn g p ph (sample_action policy s r).1) →
     ∀ fuel, get_behaviour policy fuel st g p ph gen = None)
  ∧ (g ≠ ACTION_GOAL → ¬ (g = PERSON_GOAL ∧ ph = PHASE_END) →
     ∀ b base fuel,
       b ∉ _get_valid_list g p ph →
       manual_manipulation_base b = Some base →
       base ∈ _get_valid_list g p ph →
       get_behaviour (constant_policy b) (12 + fuel) st g p ph tt
       = Some (PyBehaviour base, tt)).
Proof.
  split; [|split].
  - intros -> fuel. apply get_behaviour_action_goal.
  - intros Hg Hpe Hdraw fuel. by apply get_behaviour_stubborn_diverges.
  - intros Hg Hpe b base fuel. by apply get_behaviour_constant_compound.
Qed.

(** The amended C2 at work: at the action goal a stub that always praises a
    slow repetition is answered by silence; at the session goal a stub that
    always draws silence is never answered, and a stub that always draws
    manual manipulation with questioning is answered by questioning. *)
Lemma C2_termination_without_ceiling_witness :
  (∃ b gen',
     get_behaviour (constant_policy A_PRAISE) 1 0 ACTION_GOAL (Some SLOW)
       PHASE_START tt = Some (PyBehaviour b, gen')
     ∧ b ∈ _get_valid_list ACTION_GOAL (Some SLOW) PHASE_START)
  ∧ (∀ s r, stubborn SESSION_GOAL (Some GOOD) PHASE_START
              (sample_action (constant_policy A_SILENCE) s r).1)
  ∧ get_behaviour (constant_policy A_SILENCE) 1000 0 SESSION_GOAL (Some GOOD)
      PHASE_START tt = None
  ∧ get_behaviour (constant_policy A_MANUALMANIPULATION_QUESTIONING) 12 0
      SESSION_GOAL (Some GOOD) PHASE_START tt
    = Some (PyBehaviour A_QUESTIONING, tt).
Proof.
  assert (Hstubborn : ∀ s r, stubborn SESSION_GOAL (Some GOOD) PHASE_START
                               (sample_action (constant_policy A_SILENCE) s r).1).
  { intros s r. split; [by_evaluation|]. intros base Hm. discriminate Hm. }
  split; [|split; [exact Hstubborn|split]].
  - apply (proj1 (C2_termination_without_ceiling (constant_policy A_PRAISE)
                    0 ACTION_GOAL (Some SLOW) PHASE_START tt) eq_refl 0%nat).
  - apply (proj1 (proj2 (C2_termination_without_ceiling
                           (constant_policy A_SILENCE)
                           0 SESSION_GOAL (Some GOOD) PHASE_START tt))
             ltac:(discriminate) ltac:(intros [? _]; discriminate)
             Hstubborn 1000%nat).
  - apply (proj2 (proj2 (C2_termination_without_ceiling
                           (constant_policy A_MANUALMANIPULATION_QUESTIONING)
                           0 SESSION_GOAL (Some GOOD) PHASE_START tt))
             ltac:(discriminate) ltac:(intros [? _]; discriminate)
             A_MANUALMANIPULATION_QUESTIONING A_QUESTIONING 0%nat);
      [by_evaluation | reflexivity | by_evaluation].
Defined.

(** C2 as stated fails: at a session goal a stub that always draws silence
    only ever draws an invalid behaviour, and [get_behaviour] returns for no
    amount of fuel. *)
Lemma C2_constant_silence_never_returns :
  (A_SILENCE ∉ _get_valid_list SESSION_GOAL (Some GOOD) PHASE_START)
  ∧ ¬ ∃ fuel,
        is_Some (get_behaviour (constant_policy A_SILENCE) fuel 0 SESSION_GOAL
                   (Some GOOD) PHASE_START tt).
Proof.
  split; [by_evaluation|]. intros [fuel [r Hr]].
  rewrite get_behaviour_stubborn_diverges in Hr; [discriminate|discriminate|..].
  - intros [? _]; discriminate.
  - intros s r'. split; [by_evaluation|]. intros base Hm. discriminate.
Qed.

(** ** The retry budget *)

Section LoopBody.
Context {Rng : Type} (policy : Policy Rng).

(** Below the action goal, a pass that finds the count at most 10 draws again
    in the same state and adds one to the count. *)
Lemma loop_body_resample g (l : Locals Rng) :
  g ≠ ACTION_GOAL → count l ≤ 10 →
  loop_body policy g l
  = mkLocals (sample_action policy (state l) (rng l)).1 (state l)
      (count l + 1) (sample_action policy (state l) (rng l)).2.
Proof.
  intros Hg Hc. unfold loop_body.
  rewrite bool_decide_eq_false_2, bool_decide_eq_true_2 by done.
  by destruct (sample_action policy (state l) (rng l)).
Qed.

(** Once the count is above 10, a manual-manipulation compound is replaced by
    its base without any draw. *)
Lemma loop_body_base g (l : Locals Rng) base :
  g ≠ ACTION_GOAL → count l > 10 →
  manual_manipulation_base (behaviour l) = Some base →
  loop_body policy g l = mkLocals base (state l) (count l + 1) (rng l).
Proof.
  intros Hg Hc Hm. unfold loop_body.
  rewrite !bool_decide_eq_false_2 by (done || lia). by rewrite Hm.
Qed.

(** Once the count is above 10, any other behaviour (the End marker read as
    the Start marker) moves the state by one observation; the next draw is
    made in the new state, and the count, set to 0 and then incremented like
    in every pass, is 1. *)
Lemma loop_body_fallback g (l : Locals Rng) :
  g ≠ ACTION_GOAL → count l > 10 →
  manual_manipulation_base (behaviour l) = None →
  let b := if bool_decide (behaviour l = A_END) then A_START else behaviour l in
  let obs := sample_observation policy (state l) b (rng l) in
  loop_body policy g l
  = mkLocals (sample_action policy obs.1 obs.2).1 obs.1 1
      (sample_action policy obs.1 obs.2).2.
Proof.
  intros Hg Hc Hm b obs. unfold loop_body.
  rewrite !bool_decide_eq_false_2 by (done || lia). rewrite Hm.
  subst obs b. destruct (sample_observation policy _ _ _) as [s r].
  cbn [fst snd]. by destruct (sample_action policy s r).
Qed.

End LoopBody.

(** C3, on a sampler that draws silence eleven times and then questioning, at
    a session goal: the first draw and all ten draws that a budget of ten
    allows are invalid, and [get_behaviour] still resamples an eleventh time
    in the same state, without any observation in between, and returns the
    questioning of the twelfth draw.  Only a twelfth silence sends it to the
    fallback, which observes the move to state 1 and draws there. *)
Theorem C3_eleventh_resample_before_fallback :
  get_behaviour scripted_policy 11 0 SESSION_GOAL (Some GOOD) PHASE_START
    (mkTape (replicate 11 A_SILENCE ++ [A_QUESTIONING]) [])
  = Some (PyBehaviour A_QUESTIONING, mkTape [] (replicate 12 (SampleAction 0)))
  ∧ get_behaviour scripted_policy 12 0 SESSION_GOAL (Some GOOD) PHASE_START
      (mkTape (replicate 12 A_SILENCE ++ [A_QUESTIONING]) [])
    = Some (PyBehaviour A_QUESTIONING,
            mkTape [] (replicate 12 (SampleAction 0)
                       ++ [SampleObservation 0 A_SILENCE; SampleAction 1])).
Proof. split; vm_compute; reflexivity. Qed.

(** ** The behaviour and the observation *)

Section Observation.
Context {Rng : Type} (policy : Policy Rng).

(** [GetBehaviour.run] on top of [get_behaviour] as it stands: whenever the
    wrapper returns, the tuple assignment raises [TypeError], and neither the
    blackboard nor the globals have changed. *)
Lemma run_raises_TypeError fuel s gen nd ctl r nd' ctl' gen' :
  GetBehaviour.run policy fuel s gen nd ctl = Some (r, nd', ctl', gen') →
  r = Raise TypeError ∧ nd' = nd ∧ ctl' = ctl.
Proof.
  unfold GetBehaviour.run. intros H.
  destruct (get_behaviour policy _ _ _ _ _ _) as [[v g1]|] eqn:Hg;
    simplify_eq/=.
  destruct (get_behaviour_sound _ _ _ _ _ _ _ _ _ Hg) as (b & -> & _).
  by simplify_eq/=.
Qed.

End Observation.




(** ** Subgoals *)

(** C6, on the code as it stands: [CreateSubgoal.run] evaluates
    [PolicyWrapper.ACTION_GOAL] before anything else, so at every level it
    raises [AttributeError], returns no status and sets no new goal. *)
Theorem C6_create_subgoal_raises (s : CreateSubgoal.self) (nd : nodedata.t) :
  CreateSubgoal.run s nd = (Raise AttributeError, nd).
Proof. reflexivity. Qed.

(** What [EndSubgoal.run] does at every level: above level 4 it returns
    FAIL; at any other level the test of line 570 raises [AttributeError];
    either way the blackboard and the globals are as they were. *)
Lemma EndSubgoal_run_cases (s : EndSubgoal.self) (nd : nodedata.t)
    (ctl : controller.t) :
  EndSubgoal.run s nd ctl
  = (if bool_decide (EndSubgoal.goal_level s > 4) then Return FAIL
     else Raise AttributeError, nd, ctl).
Proof.
  unfold EndSubgoal.run, EndSubgoal.body. by case_bool_decide.
Qed.

(** C7, as amended: [EndSubgoal] returns FAIL exactly when the goal level is
    above 4, the level of the action goal, and then it changes nothing. *)
Theorem C7_end_subgoal_fails_above_action (l : Z) (nd : nodedata.t)
    (ctl : controller.t) :
  let out := EndSubgoal.run (EndSubgoal.mk l) nd ctl in
  (out.1.1 = Return FAIL ↔ l > 4)
  ∧ (l > 4 → out = (Return FAIL, nd, ctl)).
Proof.
  intros out. subst out. rewrite EndSubgoal_run_cases.
  cbn [EndSubgoal.goal_level fst snd].
  case_bool_decide; split; try split; intros; first [done|lia].
Qed.

(** The amended C7 at work one level above the action goal. *)
Lemma C7_end_subgoal_fails_above_action_witness :
  5 > 4
  ∧ EndSubgoal.run (EndSubgoal.mk 5) blank_nodedata (sample_controller [] 2 5)
    = (Return FAIL, blank_nodedata, sample_controller [] 2 5).
Proof.
  assert (H : 5 > 4) by reflexivity.
  split; [exact H|].
  exact (proj2 (C7_end_subgoal_fails_above_action 5 blank_nodedata
                  (sample_controller [] 2 5)) H).
Defined.

(** C7 as stated fails on both sides of the session goal.  The set goal is
    beyond the session goal, yet ending it does not return FAIL; the session
    goal is within the stated range, yet ending it does not return SUCCESS
    and sets no new goal level. *)
Lemma C7_end_subgoal_range_is_not_up_to_session :
  SESSION_GOAL < SET_GOAL
  ∧ (EndSubgoal.run (EndSubgoal.mk SET_GOAL) blank_nodedata
       (sample_controller [] 2 5)).1.1 ≠ Return FAIL
  ∧ (EndSubgoal.run (EndSubgoal.mk SESSION_GOAL) blank_nodedata
       (sample_controller [] 2 5)).1.1 ≠ Return SUCCESS
  ∧ nodedata.new_goal
      (EndSubgoal.run (EndSubgoal.mk SESSION_GOAL) blank_nodedata
         (sample_controller [] 2 5)).1.2 = None.
Proof. split; [reflexivity|]. rewrite !EndSubgoal_run_cases. by vm_compute. Qed.

(** ** Repetition *)

(** C8, at its failing inputs, on the code as it stands.  Questioning is
    drawn at a session goal after it has been used: [GetBehaviour.run] raises
    [TypeError] at the tuple assignment, so the behaviour is not replaced by
    pre-instruction.  Questioning is drawn when nothing has been used:
    [run] raises the same error, so the behaviour is not appended to
    [used_behaviours].  And had the assignment stored a pair, the test of
    line 128 would raise [AttributeError] for the used behaviour, leaving
    questioning on the blackboard and [used_behaviours] and [prev_behav] as
    they were. *)
Theorem C8_repetition_is_not_suppressed :
  GetBehaviour.run scripted_policy 0
    (GetBehaviour.mk 0 SESSION_GOAL (Some GOOD) PHASE_START)
    (mkTape [A_QUESTIONING] []) blank_nodedata
    (sample_controller [A_QUESTIONING] 0 0)
  = Some (Raise TypeError, blank_nodedata,
          sample_controller [A_QUESTIONING] 0 0, mkTape [] [SampleAction 0])
  ∧ GetBehaviour.run scripted_policy 0
      (GetBehaviour.mk 0 SESSION_GOAL (Some GOOD) PHASE_START)
      (mkTape [A_QUESTIONING] []) blank_nodedata (sample_controller [] 0 0)
    = Some (Raise TypeError, blank_nodedata, sample_controller [] 0 0,
            mkTape [] [SampleAction 0])
  ∧ GetBehaviour.run_from scripted_policy
      (GetBehaviour.mk 0 SESSION_GOAL (Some GOOD) PHASE_START)
      (PyTuple A_QUESTIONING A_QUESTIONING) (mkTape [] [SampleAction 0])
      blank_nodedata (sample_controller [A_QUESTIONING] 0 0)
    = (Raise AttributeError,
       nodedata.set_obs_behaviour (Some A_QUESTIONING)
         (nodedata.set_behaviour (Some A_QUESTIONING) blank_nodedata),
       sample_controller [A_QUESTIONING] 0 0, mkTape [] [SampleAction 0]).
Proof. split; [reflexivity|]. split; reflexivity. Qed.

(** ** The end of a set *)

(** C10: [EndSetEvent] returns SUCCESS exactly when the repetitions counted
    in the current set have reached the threshold of that set, and FAIL
    otherwise; so it succeeds at 10 and fails at 9 in the first set, and
    succeeds at 5 and fails at 4 in a later set. *)
Theorem C10_end_set_threshold (ctl : controller.t) (o : EndSetEvent.outside) :
  let status c := (EndSetEvent.run (EndSetEvent.configure c) c o).1.1 in
  (status ctl = Return SUCCESS
   ↔ set_threshold (controller.set_count ctl) ≤ controller.exercise_count ctl)
  ∧ (status ctl = Return FAIL
     ↔ controller.exercise_count ctl < set_threshold (controller.set_count ctl))
  ∧ status (controller.set_exercise_count 10 (controller.set_set_count 0 ctl))
    = Return SUCCESS
  ∧ status (controller.set_exercise_count 9 (controller.set_set_count 0 ctl))
    = Return FAIL
  ∧ (controller.set_count ctl ≠ 0 →
     status (controller.set_exercise_count 5 ctl) = Return SUCCESS
     ∧ status (controller.set_exercise_count 4 ctl) = Return FAIL).
Proof.
  intros status. subst status.
  unfold EndSetEvent.run, EndSetEvent.configure, set_threshold.
  cbn [EndSetEvent.firstTime EndSetEvent.exercisecount].
  split; [|split; [|split; [|split; [|intros Hlater; split]]]].
  1, 2: destruct (decide (controller.set_count ctl = 0)) as [H0|H0];
    [rewrite !(bool_decide_eq_true_2 _ H0);
     change (bool_decide (true = true)) with true;
     change (bool_decide (true = false)) with false
    |rewrite !(bool_decide_eq_false_2 _ H0);
     change (bool_decide (false = true)) with false;
     change (bool_decide (false = false)) with true];
    cbn [andb orb]; case_bool_decide; cbn; split; intros;
    first [done|lia|exfalso; lia].
  1, 2: reflexivity.
  all: cbn [controller.set_count controller.set_exercise_count
              controller.exercise_count];
    by rewrite !(bool_decide_eq_false_2 _ Hlater).
Qed.

(** C10 at work in the third set of a session. *)
Lemma C10_end_set_threshold_witness :
  let status c :=
    (EndSetEvent.run (EndSetEvent.configure c) c
       (EndSetEvent.mkOutside true 0)).1.1 in
  controller.set_count (sample_controller [] 2 0) ≠ 0
  ∧ status (sample_controller [] 2 5) = Return SUCCESS
  ∧ status (sample_controller [] 2 4) = Return FAIL.
Proof.
  intros status.
  assert (H : controller.set_count (sample_controller [] 2 0) ≠ 0)
    by discriminate.
  split; [exact H|].
  exact (proj2 (proj2 (proj2 (proj2
           (C10_end_set_threshold (sample_controller [] 2 0)
              (EndSetEvent.mkOutside true 0))))) H).
Defined.

(** ** Feedback statistics *)

(** [round] answers an integer at distance at most one half. *)
Lemma round_nearest (x : Q) :
  (x - (1 # 2) <= inject_Z (round x) <= x + (1 # 2))%Q.
Proof.
  unfold round.
  pose proof (Qfloor_le x) as Hlo. pose proof (Qlt_floor x) as Hhi.
  rewrite inject_Z_plus in Hhi. change (inject_Z 1) with 1%Q in Hhi.
  destruct (Qcompare_spec (x - inject_Z (Qfloor x)) (1 # 2)) as [He|Hlt|Hgt].
  - destruct (Z.even (Qfloor x));
      rewrite ?inject_Z_plus; change (inject_Z 1) with 1%Q; lra.
  - lra.
  - rewrite inject_Z_plus. change (inject_Z 1) with 1%Q. lra.
Qed.

(** A tie goes to the even neighbour. *)
Lemma round_ties_to_even : round (1 # 2) = 0 ∧ round (3 # 2) = 2.
Proof. split; reflexivity. Qed.

(** C9, on the code as it stands.  Before anything else [TimestepCue.run]
    compares a goal level with a constant of [PolicyWrapper], in line 649
    for the cue of level [-1] and in line 674 for every other cue.  So for
    every node, blackboard and controller, and whatever [statistics.mean]
    answers, it raises [AttributeError] and leaves the blackboard and the
    globals as they were; in particular so does the End-phase cue of a set
    whose performances are 0, 1, 2 and whose scores are 0.5 and 0.7: no list
    is folded and no performance or score is reported. *)
Theorem C9_timestep_cue_raises (mean : list Q → Exn + Q) :
  (∀ s nd ctl, TimestepCue.run mean s nd ctl = (Raise AttributeError, nd, ctl))
  ∧ controller.set_performance_list (sample_controller [] 2 5) = [0; 1; 2]
  ∧ controller.set_score_list (sample_controller [] 2 5) = [1 # 2; 7 # 10]
  ∧ TimestepCue.run mean (TimestepCue.mk (Some SET_GOAL) (Some PHASE_END))
      blank_nodedata (sample_controller [] 2 5)
    = (Raise AttributeError, blank_nodedata, sample_controller [] 2 5)
  ∧ nodedata.performance blank_nodedata = None
  ∧ nodedata.score blank_nodedata = None.
Proof.
  assert (H : ∀ s nd ctl,
            TimestepCue.run mean s nd ctl = (Raise AttributeError, nd, ctl)).
  { intros s nd ctl. unfold TimestepCue.run, TimestepCue.body.
    by case_bool_decide. }
  split; [exact H|]. by rewrite H.
Qed.

(** * Further properties of the code *)

(** ** The valid list, context by context *)

(** Splits a goal about [_get_valid_list] into the contexts that the function
    tells apart; in each of them the list is a list of given behaviours. *)
Ltac valid_list_cases :=
  unfold _get_valid_list; repeat case_bool_decide;
  unfold PERSON_GOAL, SESSION_GOAL, EXERCISE_GOAL, SET_GOAL, ACTION_GOAL,
    PHASE_START, PHASE_END, GOOD, FAST, SLOW in *.

(** Settles [b ∈ l ↔ Q] for a given [b] and [l] by evaluating the left-hand
    side and reading the right-hand side off the context. *)
Ltac settle_membership :=
  match goal with
  | |- ?b ∈ ?l ↔ _ =>
      first [ assert (b ∈ l) by by_evaluation
            | assert (b ∉ l) by by_evaluation ]
  end;
  split; intros; try done; intuition congruence.

(** X1: praise is on the valid list exactly after a good performance, scold
    and console exactly after a slow or fast one, and none of them ever at
    the person goal. *)
Theorem X1_praise_and_scold_follow_performance (g : Z) (p : Performance)
    (ph : Z) :
  (A_PRAISE ∈ _get_valid_list g p ph ↔ g ≠ PERSON_GOAL ∧ p = Some GOOD)
  ∧ (A_SCOLD ∈ _get_valid_list g p ph
     ↔ g ≠ PERSON_GOAL ∧ (p = Some SLOW ∨ p = Some FAST))
  ∧ (A_CONSOLE ∈ _get_valid_list g p ph
     ↔ g ≠ PERSON_GOAL ∧ (p = Some SLOW ∨ p = Some FAST)).
Proof. valid_list_cases; (split; [|split]); settle_membership. Qed.

(** X2: the End marker is on the valid list exactly at the person goal and at
    the session goal, outside the Start phase. *)
Theorem X2_end_marker_valid_iff (g : Z) (p : Performance) (ph : Z) :
  A_END ∈ _get_valid_list g p ph
  ↔ (g = PERSON_GOAL ∨ g = SESSION_GOAL) ∧ ph ≠ PHASE_START.
Proof. valid_list_cases; settle_membership. Qed.

(** X3: a fast and a slow performance have the same valid list; and every
    goal level that is none of person, session, exercise and set has the
    valid list of the action goal, which does not depend on the phase. *)
Theorem X3_valid_list_insensitive (g : Z) (p : Performance) (ph ph' : Z) :
  _get_valid_list g (Some FAST) ph = _get_valid_list g (Some SLOW) ph
  ∧ (g ≠ PERSON_GOAL → g ≠ SESSION_GOAL → g ≠ EXERCISE_GOAL → g ≠ SET_GOAL →
     _get_valid_list g p ph = _get_valid_list ACTION_GOAL p ph').
Proof.
  split.
  - valid_list_cases; first [reflexivity | exfalso; intuition congruence].
  - intros. unfold _get_valid_list.
    rewrite !(bool_decide_eq_false_2 (g = PERSON_GOAL)) by done.
    rewrite !(bool_decide_eq_false_2 (g = SESSION_GOAL ∨ _)) by tauto.
    reflexivity.
Qed.

(** X3 at work on goal level 5, one beyond the action goal. *)
Lemma X3_valid_list_insensitive_witness :
  _get_valid_list 5 (Some GOOD) PHASE_START
  = _get_valid_list ACTION_GOAL (Some GOOD) PHASE_END.
Proof.
  apply (proj2 (X3_valid_list_insensitive 5 (Some GOOD) PHASE_START PHASE_END));
    discriminate.
Defined.

(** X4: the valid list names a behaviour twice in one context only, the Start
    phase of a session, exercise or set goal after a good performance, where
    the praise behaviours are added two times. *)
Theorem X4_valid_list_duplicates (g : Z) (p : Performance) (ph : Z) :
  NoDup (_get_valid_list g p ph)
  ↔ ¬ ((g = SESSION_GOAL ∨ g = EXERCISE_GOAL ∨ g = SET_GOAL)
       ∧ ph = PHASE_START ∧ p = Some GOOD).
Proof.
  valid_list_cases;
    match goal with
    | |- NoDup ?l ↔ _ =>
        first [ assert (NoDup l) by by_evaluation
              | assert (¬ NoDup l) by by_evaluation ]
    end;
    split; intros; try done; intuition congruence.
Qed.

(** ** What the wrapper returns *)

(** No valid list holds a compound that the lookup table of [get_behaviour]
    maps to a base, the Start marker or the bare first name. *)
Lemma valid_list_excludes g p ph b :
  b ∈ _get_valid_list g p ph →
  manual_manipulation_base b = None ∧ b ≠ A_START ∧ b ≠ A_FIRSTNAME.
Proof.
  revert b. apply Forall_forall. valid_list_cases; by_evaluation.
Qed.

(** Silence is on the valid list of no person, session, exercise or set
    goal. *)
Lemma silence_invalid_above_action g p ph :
  g = PERSON_GOAL ∨ g = SESSION_GOAL ∨ g = EXERCISE_GOAL ∨ g = SET_GOAL →
  A_SILENCE ∉ _get_valid_list g p ph.
Proof.
  intros Hg. valid_list_cases;
    first [by_evaluation | exfalso; intuition congruence].
Qed.

(** X5: whatever the sampler draws, [get_behaviour] never returns a compound
    with manual manipulation that its lookup table knows, the Start marker
    or the bare first name; and at a person, session, exercise or set goal
    it never returns silence. *)
Theorem X5_never_returned {Rng : Type} (policy : Policy Rng) (fuel : nat)
    (st : State) (g : Z) (p : Performance) (ph : Z) (gen gen' : Rng)
    (b : Behaviour) :
  get_behaviour policy fuel st g p ph gen = Some (PyBehaviour b, gen') →
  manual_manipulation_base b = None ∧ b ≠ A_START ∧ b ≠ A_FIRSTNAME
  ∧ (g = PERSON_GOAL ∨ g = SESSION_GOAL ∨ g = EXERCISE_GOAL ∨ g = SET_GOAL →
     b ≠ A_SILENCE).
Proof.
  intros H.
  destruct (get_behaviour_sound _ _ _ _ _ _ _ _ _ H) as (b' & Hb' & Hin).
  simplify_eq.
  destruct (valid_list_excludes _ _ _ _ Hin) as (? & ? & ?).
  repeat split; try done.
  intros Hg ->. by apply (silence_invalid_above_action g p ph Hg).
Qed.

(** X5 at work: a stub that always draws manual manipulation with praise,
    answered by praise. *)
Lemma X5_never_returned_witness :
  get_behaviour (constant_policy A_MANUALMANIPULATION_PRAISE) 12 0 SET_GOAL
    (Some GOOD) PHASE_END tt = Some (PyBehaviour A_PRAISE, tt)
  ∧ manual_manipulation_base A_PRAISE = None.
Proof.
  split; [reflexivity|].
  apply (X5_never_returned (constant_policy A_MANUALMANIPULATION_PRAISE) 12 0
           SET_GOAL (Some GOOD) PHASE_END tt tt A_PRAISE eq_refl).
Defined.

(** X6: when the first draw is valid, [get_behaviour] returns it at once,
    whatever the fuel: the sampler has been asked one behaviour and no
    observation. *)
Theorem X6_valid_first_draw_returned {Rng : Type} (policy : Policy Rng)
    (fuel : nat) (st : State) (g : Z) (p : Performance) (ph : Z) (gen : Rng) :
  ¬ (g = PERSON_GOAL ∧ ph = PHASE_END) →
  (sample_action policy st gen).1 ∈ _get_valid_list g p ph →
  get_behaviour policy fuel st g p ph gen
  = Some (PyBehaviour (sample_action policy st gen).1,
          (sample_action policy st gen).2).
Proof.
  intros Hpe Hin. unfold get_behaviour, initial_locals.
  rewrite bool_decide_eq_false_2 by done.
  destruct (sample_action policy st gen) as [b r]. cbn [fst snd] in *.
  destruct fuel; cbn [while_not_valid behaviour];
    by rewrite bool_decide_eq_true_2.
Qed.

(** X6 at work on the scripted sampler, with no fuel at all. *)
Lemma X6_valid_first_draw_returned_witness :
  get_behaviour scripted_policy 0 7 EXERCISE_GOAL None PHASE_START
    (mkTape [A_PREINSTRUCTION; A_SILENCE] [])
  = Some (PyBehaviour A_PREINSTRUCTION, mkTape [A_SILENCE] [SampleAction 7]).
Proof.
  apply (X6_valid_first_draw_returned scripted_policy 0 7 EXERCISE_GOAL None
           PHASE_START (mkTape [A_PREINSTRUCTION; A_SILENCE] [])).
  - intros [? _]; discriminate.
  - by_evaluation.
Defined.

(** X7: at the action goal [get_behaviour] asks the sampler for exactly one
    behaviour and returns it if it is valid, silence if it is not; one pass
    of fuel is enough. *)
Theorem X7_action_goal_one_draw {Rng : Type} (policy : Policy Rng)
    (fuel : nat) (st : State) (p : Performance) (ph : Z) (gen : Rng) :
  get_behaviour policy (S fuel) st ACTION_GOAL p ph gen
  = Some (PyBehaviour
            (if bool_decide ((sample_action policy st gen).1
                             ∈ _get_valid_list ACTION_GOAL p ph)
             then (sample_action policy st gen).1 else A_SILENCE),
          (sample_action policy st gen).2).
Proof.
  unfold get_behaviour, initial_locals.
  rewrite bool_decide_eq_false_2 by (intros [? _]; discriminate).
  destruct (sample_action policy st gen) as [b r]. cbn [fst snd].
  cbn [while_not_valid behaviour].
  case_bool_decide as Hb; [done|].
  unfold loop_body. rewrite bool_decide_eq_true_2 by done.
  assert (Hs : A_SILENCE ∈ _get_valid_list ACTION_GOAL p ph)
    by (by apply silence_valid).
  destruct fuel; cbn [while_not_valid behaviour rng mbind option_bind];
    by rewrite (bool_decide_eq_true_2 _ Hs).
Qed.

(** One pass keeps the retry counter bounded. *)
Lemma loop_body_count_bounded {Rng : Type} (policy : Policy Rng) g
    (l : Locals Rng) :
  count_bounded l → count_bounded (loop_body policy g l).
Proof.
  intros [Hc H12]. unfold count_bounded, loop_body.
  case_bool_decide as Hg; [cbn; split; [done|by intros _]|].
  case_bool_decide as H10.
  - destruct (sample_action policy _ _) as [b r]. cbn. lia.
  - destruct (manual_manipulation_base (behaviour l)) as [base|] eqn:Hm.
    + cbn. split.
      * destruct (decide (count l = 12)) as [He|]; [|lia].
        specialize (H12 He). congruence.
      * intros _. by apply (manual_manipulation_base_atomic _ _ Hm).
    + destruct (sample_observation policy _ _ _) as [s r].
      destruct (sample_action policy s r) as [b r']. cbn. lia.
Qed.

(** X8: however many passes the loop of [get_behaviour] makes, for whatever
    sampler, its retry counter stays between 0 and 12: at most eleven draws
    are made in a row in one state, and at most one base is looked up
    before the state moves on. *)
Theorem X8_retry_counter_bounded {Rng : Type} (policy : Policy Rng)
    (passes : nat) (st : State) (g ph : Z) (gen : Rng) :
  0 ≤ count (Nat.iter passes (loop_body policy g)
               (initial_locals policy st g ph gen)) ≤ 12.
Proof.
  enough (count_bounded (Nat.iter passes (loop_body policy g)
                           (initial_locals policy st g ph gen))) as [? _]
    by done.
  induction passes as [|n IH]; cbn [Nat.iter].
  - unfold initial_locals, count_bounded. case_bool_decide.
    + cbn. lia.
    + destruct (sample_action policy st gen). cbn. lia.
  - by apply loop_body_count_bounded.
Qed.

(** ** Behaviour categories *)

(** X11: [CheckForBehaviour] knows two categories only.  A check for any
    category other than pre-instruction, or for no category at all, is the
    check for questioning; so a check for praise fails on praise, and
    succeeds on questioning and empties [used_behaviours]. *)
Theorem X11_every_other_category_is_questioning
    (b c : option Behaviour) (ctl : controller.t) :
  c ≠ Some A_PREINSTRUCTION →
  CheckForBehaviour._is_example_of_behaviour b c
  = CheckForBehaviour._is_example_of_behaviour b (Some A_QUESTIONING)
  ∧ CheckForBehaviour.run (CheckForBehaviour.mk (Some A_PRAISE) c) ctl
    = (Return FAIL, ctl)
  ∧ CheckForBehaviour.run (CheckForBehaviour.mk (Some A_QUESTIONING) c) ctl
    = (Return SUCCESS, controller.set_used_behaviours [] ctl).
Proof.
  intros Hc. unfold CheckForBehaviour.run,
    CheckForBehaviour._is_example_of_behaviour.
  cbn [CheckForBehaviour.behaviour CheckForBehaviour.check_behaviour].
  rewrite (bool_decide_eq_false_2 _ Hc).
  rewrite (bool_decide_eq_false_2 (Some A_QUESTIONING = _)) by discriminate.
  done.
Qed.

(** X11 at work on a check for praise. *)
Lemma X11_every_other_category_is_questioning_witness :
  CheckForBehaviour.run
    (CheckForBehaviour.mk (Some A_QUESTIONING) (Some A_PRAISE))
    (sample_controller [A_PRAISE] 0 0)
  = (Return SUCCESS,
     controller.set_used_behaviours [] (sample_controller [A_PRAISE] 0 0)).
Proof.
  apply (X11_every_other_category_is_questioning None (Some A_PRAISE)
           (sample_controller [A_PRAISE] 0 0)).
  discriminate.
Defined.

(** X12: the two categories of [CheckForBehaviour] share one behaviour,
    pre-instruction with questioning.  Every behaviour to which
    [FormatAction] attaches a question is in the questioning category, but
    the category holds behaviours that get no question, among them the
    shared one. *)
Theorem X12_categories (b : Behaviour) :
  (CheckForBehaviour._is_example_of_behaviour (Some b) (Some A_PREINSTRUCTION)
   = true
   ∧ CheckForBehaviour._is_example_of_behaviour (Some b) (Some A_QUESTIONING)
     = true
   ↔ b = A_PREINSTRUCTION_QUESTIONING)
  ∧ (b ∈ FormatAction.question_behaviours →
     CheckForBehaviour._is_example_of_behaviour (Some b) (Some A_QUESTIONING)
     = true)
  ∧ A_PREINSTRUCTION_QUESTIONING ∉ FormatAction.question_behaviours.
Proof.
  split; [|split; [|by_evaluation]].
  - split.
    + destruct b; vm_compute; intros [? ?]; congruence.
    + intros ->. split; reflexivity.
  - revert b. apply Forall_forall. by_evaluation.
Qed.

(** X12 at work on questioning with the first name. *)
Lemma X12_categories_witness :
  CheckForBehaviour._is_example_of_behaviour (Some A_QUESTIONING_FIRSTNAME)
    (Some A_QUESTIONING) = true.
Proof.
  apply (proj1 (proj2 (X12_categories A_QUESTIONING_FIRSTNAME))).
  by_evaluation.
Defined.

(** ** Subgoals, sets and the session clock *)

(** X13: [EndSubgoal] never returns SUCCESS and never writes.  Whatever the
    level, the blackboard and the globals are as they were; up to level 4 it
    raises [AttributeError], and so it does on a blackboard without a goal,
    where it reads level [-1]. *)
Theorem X13_end_subgoal_never_succeeds (s : EndSubgoal.self)
    (nd : nodedata.t) (ctl : controller.t) :
  let out := EndSubgoal.run s nd ctl in
  out.1.1 ≠ Return SUCCESS
  ∧ out.1.2 = nd
  ∧ out.2 = ctl
  ∧ (out.1.1 = Raise AttributeError ↔ EndSubgoal.goal_level s ≤ 4)
  ∧ EndSubgoal.run (EndSubgoal.configure blank_nodedata) nd ctl
    = (Raise AttributeError, nd, ctl).
Proof.
  intros out. subst out. rewrite !EndSubgoal_run_cases. cbn [fst snd].
  split; [by case_bool_decide|]. split; [done|]. split; [done|].
  split; [|done].
  case_bool_decide; split; intros; first [done|lia].
Qed.

(** X17: what [EndSetEvent] changes.  When it fails nothing changes.  When it
    succeeds it counts one more set, raises the completed flag, stops
    expecting an action goal and posts one stop request; it does not reset
    the repetitions, so in a session whose sets are counted from 0 the same
    event, configured and run again at once, succeeds again. *)
Theorem X17_end_set_event_effects (ctl : controller.t)
    (o : EndSetEvent.outside) :
  let out := EndSetEvent.run (EndSetEvent.configure ctl) ctl o in
  (out.1.1 = Return FAIL → out.1.2 = ctl ∧ out.2 = o)
  ∧ (out.1.1 = Return SUCCESS →
     controller.set_count out.1.2 = controller.set_count ctl + 1
     ∧ controller.completed out.1.2 = COMPLETED_STATUS_TRUE
     ∧ controller.exercise_count out.1.2 = controller.exercise_count ctl
     ∧ out.2 = EndSetEvent.mkOutside false (S (EndSetEvent.stops_posted o))
     ∧ (0 ≤ controller.set_count ctl →
        (EndSetEvent.run (EndSetEvent.configure out.1.2) out.1.2 out.2).1.1
        = Return SUCCESS)).
Proof.
  intros out.
  assert (Hout : out.1.1 = Return SUCCESS →
            out = (Return SUCCESS,
                   controller.set_set_count (controller.set_count ctl + 1)
                     (controller.set_completed COMPLETED_STATUS_TRUE ctl),
                   EndSetEvent.mkOutside false (S (EndSetEvent.stops_posted o)))
            ∧ 5 ≤ controller.exercise_count ctl).
  { subst out. unfold EndSetEvent.run, EndSetEvent.configure.
    cbn [EndSetEvent.firstTime EndSetEvent.exercisecount].
    destruct (bool_decide (controller.set_count ctl = 0));
      [change (bool_decide (true = true)) with true;
       change (bool_decide (true = false)) with false
      |change (bool_decide (false = true)) with false;
       change (bool_decide (false = false)) with true];
      cbn [andb orb]; rewrite ?orb_false_r;
      case_bool_decide; cbn [fst snd]; intros ?; first [done|split; [done|lia]]. }
  split.
  - subst out. unfold EndSetEvent.run. by destruct (_ || _).
  - intros Hs. destruct (Hout Hs) as [-> H5]. cbn [fst snd].
    repeat split. intros Hsets.
    unfold EndSetEvent.run, EndSetEvent.configure.
    cbn [EndSetEvent.firstTime EndSetEvent.exercisecount controller.set_count
           controller.exercise_count controller.set_completed
           controller.set_set_count].
    rewrite (bool_decide_eq_false_2 (controller.set_count ctl + 1 = 0)) by lia.
    change (bool_decide (false = true)) with false.
    change (bool_decide (false = false)) with true.
    cbn [andb orb].
    by rewrite bool_decide_eq_true_2 by lia.
Qed.

(** X17 at work in the second set of a session, five repetitions done. *)
Lemma X17_end_set_event_effects_witness :
  let ctl := sample_controller [] 1 5 in
  let out := EndSetEvent.run (EndSetEvent.configure ctl) ctl
               (EndSetEvent.mkOutside true 0) in
  out.1.1 = Return SUCCESS
  ∧ controller.set_count out.1.2 = 2
  ∧ (EndSetEvent.run (EndSetEvent.configure out.1.2) out.1.2 out.2).1.1
    = Return SUCCESS.
Proof.
  intros ctl out.
  destruct (proj2 (X17_end_set_event_effects ctl
                     (EndSetEvent.mkOutside true 0)) eq_refl)
    as (Hcount & _ & _ & _ & Hagain).
  split; [reflexivity|]. split; [exact Hcount|].
  apply Hagain. by vm_compute.
Defined.

(** X18: [DurationCheck] succeeds exactly when the session clock has run for
    the requested duration since the start time, and fails otherwise.  The
    start time is not written by [InitialiseBlackboard.run]: that callback
    raises [AttributeError] at the assignment of the phase, after the belief,
    the state and the performance [-1], and leaves the slots of the phase
    and of the start time unset. *)
Theorem X18_duration_check (start duration : Z) (ctl : controller.t)
    (i : InitialiseBlackboard.self) (policy : Z) :
  let check := DurationCheck.run (DurationCheck.configure start duration ctl) in
  let w := InitialiseBlackboard.run i policy in
  (check = Return SUCCESS ↔ duration ≤ controller.session_time ctl - start)
  ∧ (check = Return FAIL ↔ controller.session_time ctl - start < duration)
  ∧ InitialiseBlackboard.outcome w = Raise AttributeError
  ∧ InitialiseBlackboard.performance w = -1
  ∧ InitialiseBlackboard.phase w = None
  ∧ InitialiseBlackboard.start_time w = None.
Proof.
  intros check w. subst check w.
  unfold DurationCheck.run, DurationCheck.configure.
  cbn [DurationCheck.current_time DurationCheck.start_time
         DurationCheck.session_duration].
  split; [|split; [|done]];
    case_bool_decide; split; intros; first [done|lia].
Qed.

(** ** Formatting the action *)

Section FormatActionFacts.
Context {Msg Demo Name Exercise Hand : Type}.
Variable get_pre_msg :
  option Behaviour → option Z → Performance → option Z → Name → Exercise →
  bool → Msg.
Variable get_demo_string :
  option Behaviour → option Z → Exercise → Hand → Demo.

Local Abbreviation run := (FormatAction.run get_pre_msg get_demo_string).

(** X25: how [FormatAction] ends.  It fails on silence and on nothing else,
    and then stores no action.  It never changes [given_score].  It returns
    SUCCESS only with an action that carries neither the score nor a
    question.  For a behaviour that gets a question it raises
    [AttributeError] before an action is stored, and whenever it has stored
    an action with the score it raises [AttributeError]. *)
Theorem X25_format_action_outcomes (s : FormatAction.self)
    (ctl : controller.t) (given_score : Z) (leftHand : Hand) :
  let out := run s ctl given_score leftHand in
  (out.1.1 = Return FAIL ↔ FormatAction.behaviour s = Some A_SILENCE)
  ∧ (out.1.1 = Return FAIL → out.1.2 = None)
  ∧ out.2 = given_score
  ∧ (out.1.1 = Return SUCCESS →
     ∃ pre_msg demo, out.1.2 = Some (FormatAction.Plain pre_msg demo None))
  ∧ (FormatAction.among (FormatAction.behaviour s)
       FormatAction.question_behaviours = true →
     out = (Raise AttributeError, None, given_score))
  ∧ (∀ pre_msg score target demo question,
       out.1.2
       = Some (FormatAction.Scored pre_msg score target demo question) →
       out.1.1 = Raise AttributeError).
Proof.
  intros out. subst out. unfold FormatAction.run.
  case_bool_decide as Hb; cbn [negb].
  - cbn. repeat split; try done.
    rewrite Hb. intros H. exfalso. revert H. by vm_compute.
  - destruct (FormatAction.among (FormatAction.behaviour s)
                FormatAction.question_behaviours) eqn:Hq.
    + cbn. repeat split; done.
    + unfold callback, mbind, Body_bind, mret, Body_ret, read, assign.
      cbn [fst snd].
      destruct (_ || _); cbn; repeat split; try done; eauto.
Qed.

End FormatActionFacts.

(** X25 at work on questioning at the session goal. *)
Lemma X25_format_action_outcomes_witness :
  FormatAction.run no_pre_msg no_demo_string
    (scoring_node SESSION_GOAL A_QUESTIONING) (sample_controller [] 0 0) 0 tt
  = (Raise AttributeError, None, 0).
Proof.
  apply (X25_format_action_outcomes no_pre_msg no_demo_string
           (scoring_node SESSION_GOAL A_QUESTIONING)
           (sample_controller [] 0 0) 0 tt).
  reflexivity.
Defined.

(** ** The start of the session *)

(** The loop of [InitialiseBlackboard.run] over any belief distribution. *)
Lemma scan_scanned (belief : list Z) :
  scanned belief (fold_left InitialiseBlackboard.scan belief (0, 0, 0)).
Proof.
  induction belief as [|b seen IH] using rev_ind.
  - cbn. split; [done|]. split; [constructor|]. by left.
  - rewrite fold_left_app. cbn [fold_left].
    destruct (fold_left InitialiseBlackboard.scan seen (0, 0, 0))
      as [[style ms] mb].
    destruct IH as (Hstyle & Hall & Hmax).
    unfold InitialiseBlackboard.scan, scanned.
    rewrite length_app. cbn [length].
    assert (Hmb : 0 ≤ mb) by (destruct Hmax as [[-> _]|[? _]]; lia).
    case_bool_decide as Hb.
    + split; [lia|]. split.
      * apply Forall_app. split; [|by constructor].
        eapply Forall_impl; [exact Hall|]. cbn. lia.
      * right. split; [lia|]. split; [lia|].
        rewrite Hstyle, Nat2Z.id. split.
        -- by rewrite list_lookup_middle.
        -- rewrite take_app_length.
           eapply Forall_impl; [exact Hall|]. cbn. lia.
    + split; [lia|]. split.
      * apply Forall_app. split; [done|]. constructor; [lia|constructor].
      * destruct Hmax as [?|(Hpos & Hms & Hlook & Htake)]; [by left|].
        right. split; [done|]. split; [done|].
        pose proof (lookup_lt_Some _ _ _ Hlook) as Hlt. split.
        -- by apply lookup_app_l_Some.
        -- rewrite take_app_le by lia. done.
Qed.

(** X28: the style that the loop of [InitialiseBlackboard.run] selects, for
    any belief distribution: style 0 when no belief is positive, and
    otherwise the first position that holds the largest belief. *)
Theorem X28_first_largest_belief (belief : list Z) :
  let m := InitialiseBlackboard.max_style belief in
  (Forall (λ b, b ≤ 0) belief ∧ m = 0)
  ∨ (∃ v, 0 < v ∧ 0 ≤ m
          ∧ belief !! Z.to_nat m = Some v
          ∧ Forall (λ b, b ≤ v) belief
          ∧ Forall (λ b, b < v) (take (Z.to_nat m) belief)).
Proof.
  intros m. subst m. unfold InitialiseBlackboard.max_style.
  pose proof (scan_scanned belief) as H.
  destruct (fold_left InitialiseBlackboard.scan belief (0, 0, 0))
    as [[style ms] mb].
  destruct H as (_ & Hall & [[-> ->]|(Hpos & Hms & Hlook & Htake)]).
  - by left.
  - right. by exists mb.
Qed.

(** The belief distribution for a policy number that is neither [-1] nor
    one of 0 to 11 is zero everywhere. *)
Lemma belief_out_of_range (s : InitialiseBlackboard.self) (policy : Z) :
  policy < -1 ∨ 11 < policy →
  InitialiseBlackboard.belief_distribution s policy = replicate 12 0.
Proof.
  intros Hp. unfold InitialiseBlackboard.belief_distribution.
  rewrite bool_decide_eq_false_2 by lia. cbn [map seq Z.of_nat Pos.of_succ_nat
    Pos.succ].
  by repeat (rewrite bool_decide_eq_false_2 by lia).
Qed.

(** X29: the start state that [InitialiseBlackboard.run] writes.  The belief
    distribution has twelve entries.  A policy number from 0 to 11 gives the
    start state of that style, and different numbers give different states;
    [-1] gives the state of style 3 for an impairment of 4 or more and of
    style 8 below; any other number gives a belief that is zero everywhere
    and with it state 0, the start state of style 0. *)
Theorem X29_start_state (user_impairment policy policy' : Z) :
  let w p := InitialiseBlackboard.run
               (InitialiseBlackboard.configure user_impairment) p in
  length (InitialiseBlackboard.belief (w policy)) = 12%nat
  ∧ (0 ≤ policy ≤ 11 →
     InitialiseBlackboard.state (w policy)
     = InitialiseBlackboard._get_start policy
     ∧ (0 ≤ policy' ≤ 11 → policy ≠ policy' →
        InitialiseBlackboard.state (w policy)
        ≠ InitialiseBlackboard.state (w policy')))
  ∧ (policy = -1 →
     InitialiseBlackboard.state (w policy)
     = if bool_decide (user_impairment < 4) then 376 else 135)
  ∧ (policy < -1 ∨ 11 < policy →
     InitialiseBlackboard.belief (w policy) = replicate 12 0
     ∧ InitialiseBlackboard.state (w policy) = 0).
Proof.
  intros w. subst w.
  assert (Hrange : ∀ p, 0 ≤ p ≤ 11 →
            InitialiseBlackboard.state
              (InitialiseBlackboard.run
                 (InitialiseBlackboard.configure user_impairment) p)
            = InitialiseBlackboard._get_start p
            ∧ InitialiseBlackboard._get_start p
              = p * 45 + (if bool_decide (p ≤ 6) then 0 else (p - 6) * 8)).
  { intros p Hp.
    assert (p = 0 ∨ p = 1 ∨ p = 2 ∨ p = 3 ∨ p = 4 ∨ p = 5 ∨ p = 6 ∨ p = 7
            ∨ p = 8 ∨ p = 9 ∨ p = 10 ∨ p = 11) as Hcases by lia.
    repeat (destruct Hcases as [->|Hcases]); try subst p; by vm_compute. }
  split; [|split; [|split]].
  - unfold InitialiseBlackboard.run, InitialiseBlackboard.belief_distribution.
    cbn [InitialiseBlackboard.belief].
    repeat case_bool_decide; by rewrite ?length_map.
  - intros Hp. split; [by apply Hrange|].
    intros Hp' Hne.
    destruct (Hrange policy Hp) as [-> ->].
    destruct (Hrange policy' Hp') as [-> ->].
    repeat case_bool_decide; lia.
  - intros ->. unfold InitialiseBlackboard.run,
      InitialiseBlackboard.belief_distribution, InitialiseBlackboard.configure.
    cbn [InitialiseBlackboard.state InitialiseBlackboard.experience].
    destruct (bool_decide (user_impairment < 4)); by vm_compute.
  - intros Hp. unfold InitialiseBlackboard.run.
    cbn [InitialiseBlackboard.state InitialiseBlackboard.belief].
    by rewrite belief_out_of_range.
Qed.

(** X29 at work: policy 7, and a policy number out of range. *)
Lemma X29_start_state_witness :
  InitialiseBlackboard.state
    (InitialiseBlackboard.run (InitialiseBlackboard.configure 2) 7) = 323
  ∧ InitialiseBlackboard.state
      (InitialiseBlackboard.run (InitialiseBlackboard.configure 2) 12) = 0.
Proof.
  pose proof (X29_start_state 2 7 0) as (_ & H7 & _).
  pose proof (X29_start_state 2 12 0) as (_ & _ & _ & H12).
  split.
  - rewrite (proj1 (H7 ltac:(lia))). reflexivity.
  - apply (H12 ltac:(lia)).
Defined.
